(** * brapi: the dispatch pipeline of [brapi.api.BaseAPI], its schema-binding
    decorator, its exception type and its router, as a shallow embedding.

    Layout (one module per source file):
    - [python]     : the Python values, exceptions and the effect monad the
                     embedding runs in;
    - [django]     : the parts of Django that brapi calls
                     ([JsonResponse], [HttpRequest], [View.dispatch], [path]);
    - [exceptions] : brapi/exceptions.py;
    - [decorators] : brapi/decorators.py;
    - [api]        : brapi/api.py;
    - [router]     : brapi/router.py;
    then the theorems about them. *)

From Stdlib Require Import ZArith String List Ascii Bool Lia.
From stdpp Require Import base option list strings gmap.

Set Warnings "-register-all".

Local Open Scope Z_scope.
Local Open Scope string_scope.

(* ===================================================================== *)
(** ** Python values, exceptions, effects                                 *)
(* ===================================================================== *)

Module python.

(** The JSON text produced by [json.dumps], kept as a tree: the bytes of the
    rendering play no role in the dispatcher. *)
Inductive json : Type :=
| JNull
| JBool (b : bool)
| JNum (n : Z)
| JStr (s : string)
| JArr (items : list json)
| JObj (fields : list (string * json)).

(** The content of a response: the JSON text of a [JsonResponse], or the
    raw text of a plain [HttpResponse]. *)
Inductive content_t : Type :=
| JsonContent (j : json)
| RawContent (text : string).

(** What an HTTP response object carries. *)
Record HttpResponse : Type := mkResponse {
  status_code : Z;
  content : content_t
}.

(** Python values that reach the dispatcher. A dict keeps its insertion
    order (an association list, keys are [str]); [PyResponse] is an
    [HttpResponse] object handed around as a value; [PyObject] is any other
    object, one that neither the JSON encoder nor [int()] has a rule for (a
    model instance, a set, an exception object...). Floats and byte strings
    are left out. *)
Inductive pyval : Type :=
| PyNone
| PyBool (b : bool)
| PyInt (n : Z)
| PyStr (s : string)
| PyList (items : list pyval)
| PyTuple (items : list pyval)
| PyDict (entries : list (string * pyval))
| PyResponse (r : HttpResponse)
| PyObject (repr : string).

(** Exceptions, one constructor per [except] clause of [BaseAPI.dispatch]
    (a subclass is caught by the clause of its base class, so it is the same
    constructor here), in the order of the clauses. [OtherException] is any
    other subclass of [Exception] ([ValueError], [KeyError],
    [UnicodeDecodeError], ...); [NonException] is a [BaseException] that is
    not an [Exception] ([KeyboardInterrupt], [SystemExit]). *)
Inductive exn : Type :=
| ValidationError (errors : pyval)
| JSONDecodeError
| NotImplementedError
| ObjectDoesNotExist
| APIException (code message status_code : pyval)
| TypeError
| OtherException (class_name : string)
| NonException (class_name : string).

(** The outcome of a call: a returned value or a raised exception. *)
Inductive outcome (A : Type) : Type :=
| Return (a : A)
| Raise (e : exn).
Arguments Return {A} a.
Arguments Raise {A} e.

Definition is_return {A} (o : outcome A) : bool :=
  match o with Return _ => true | Raise _ => false end.

Definition fst_return {A} (o : outcome A) : option A :=
  match o with Return a => Some a | Raise _ => None end.

(** [json.dumps(v)] with Django's encoder: [None] when the encoder raises
    [TypeError] (object not serializable). Lists and tuples both become
    arrays. *)
Fixpoint json_dumps (v : pyval) : option json :=
  match v with
  | PyNone => Some JNull
  | PyBool b => Some (JBool b)
  | PyInt n => Some (JNum n)
  | PyStr s => Some (JStr s)
  | PyList items | PyTuple items =>
      JArr <$> (fix dumps_items (l : list pyval) : option (list json) :=
                  match l with
                  | [] => Some []
                  | x :: l' =>
                      match json_dumps x, dumps_items l' with
                      | Some j, Some js => Some (j :: js)
                      | _, _ => None
                      end
                  end) items
  | PyDict entries =>
      JObj <$> (fix dumps_entries (l : list (string * pyval))
                  : option (list (string * json)) :=
                  match l with
                  | [] => Some []
                  | (k, x) :: l' =>
                      match json_dumps x, dumps_entries l' with
                      | Some j, Some js => Some ((k, j) :: js)
                      | _, _ => None
                      end
                  end) entries
  | PyResponse _ => None
  | PyObject _ => None
  end.

(** Truthiness of the values tested with [if x:] in the code. *)
Definition truthy_str (s : string) : bool :=
  match s with EmptyString => false | _ => true end.

(** [kwargs.get("pk")] followed by [if pk := ...]: the identifier when the
    key is there and its value is a non-empty string. *)
Definition truthy_pk (pk : option string) : option string :=
  match pk with
  | Some s => if truthy_str s then Some s else None
  | None => None
  end.

(** *** [int(x)] on the values above (ASCII strings). The blanks it strips
    from an ASCII string are tab, line feed, vertical tab, form feed,
    carriage return and space. *)

Definition is_space (a : ascii) : bool :=
  let n := nat_of_ascii a in
  (((9 <=? n) && (n <=? 13)) || (n =? 32))%nat.

Definition digit_val (a : ascii) : option Z :=
  let n := nat_of_ascii a in
  if ((48 <=? n) && (n <=? 57))%nat then Some (Z.of_nat (n - 48)) else None.

Fixpoint lstrip (s : string) : string :=
  match s with
  | String a r => if is_space a then lstrip r else s
  | EmptyString => EmptyString
  end.

Fixpoint rstrip (s : string) : string :=
  match s with
  | String a r =>
      match rstrip r with
      | EmptyString => if is_space a then EmptyString else String a EmptyString
      | r' => String a r'
      end
  | EmptyString => EmptyString
  end.

(** Decimal digits, single underscores allowed between two digits. *)
Fixpoint parse_digits (acc : Z) (after_digit : bool) (s : string) : option Z :=
  match s with
  | EmptyString => if after_digit then Some acc else None
  | String a r =>
      match digit_val a with
      | Some d => parse_digits (10 * acc + d) true r
      | None =>
          if Ascii.eqb a "_" && after_digit
          then parse_digits acc false r
          else None
      end
  end.

Definition int_of_str (s : string) : option Z :=
  match rstrip (lstrip s) with
  | String "-" r => Z.opp <$> parse_digits 0 false r
  | String "+" r => parse_digits 0 false r
  | r => parse_digits 0 false r
  end.

(** [int(v)]: [None] stands for the [ValueError] or [TypeError] it raises. *)
Definition py_int (v : pyval) : option Z :=
  match v with
  | PyInt n => Some n
  | PyBool b => Some (if b then 1 else 0)
  | PyStr s => int_of_str s
  | _ => None
  end.

(** *** The effect monad: a state and an outcome. An exception keeps the
    state reached when it was raised, as in Python. *)

Definition M (S A : Type) : Type := S -> outcome A * S.

Definition ret {S A} (a : A) : M S A := fun s => (Return a, s).
Definition raise {S A} (e : exn) : M S A := fun s => (Raise e, s).
Definition bind {S A B} (m : M S A) (k : A -> M S B) : M S B :=
  fun s => match m s with
           | (Return a, s') => k a s'
           | (Raise e, s') => (Raise e, s')
           end.

(** [try: m except e: h e] *)
Definition try_except {S A} (m : M S A) (h : exn -> M S A) : M S A :=
  fun s => match m s with
           | (Return a, s') => (Return a, s')
           | (Raise e, s') => h e s'
           end.

(** A pure call that may raise. *)
Definition lift {S A} (o : outcome A) : M S A := fun s => (o, s).

End python.

Import python.

Notation "'let*' x ':=' m 'in' k" := (python.bind m (fun x => k))
  (at level 10, x binder, m at level 100, k at level 200).
Notation "m '>>' k" := (python.bind m (fun _ => k))
  (at level 90, right associativity).

(* ===================================================================== *)
(** ** The parts of Django the code calls                                 *)
(* ===================================================================== *)

Module django.

(** [request.method], upper-cased by Django; [Other] is any verb that is not
    in [View.http_method_names]. *)
Inductive http_method : Type :=
| Get | Post | Put | Patch | Delete | Head | Options | Trace
| Other (name : string).

(** [request.body], by what [json.loads(request.body.decode("utf-8"))] does
    with it. *)
Inductive raw_body : Type :=
| NotUtf8
| NotJson
| JsonText (v : pyval).

(** [django.http.HttpRequest], with the two attributes [_validate] sets.
    [None] in [validated_query] / [validated_body] is an attribute that does
    not exist on the object; [Some PyNone] is an attribute set to [None].
    [GET] and [POST] are the key/value pairs in the order received. *)
Record HttpRequest : Type := mkRequest {
  method : http_method;
  path : string;
  content_type : string;
  GET : list (string * string);
  POST : list (string * string);
  body : raw_body;
  validated_query : option pyval;
  validated_body : option pyval
}.

Definition set_validated_body (v : pyval) (r : HttpRequest) : HttpRequest :=
  mkRequest (method r) (path r) (content_type r) (GET r) (POST r) (body r)
            (validated_query r) (Some v).

Definition set_validated_query (v : pyval) (r : HttpRequest) : HttpRequest :=
  mkRequest (method r) (path r) (content_type r) (GET r) (POST r) (body r)
            (Some v) (validated_body r).

(** [d[k] = v] on an insertion-ordered dict. *)
Fixpoint dict_set (k : string) (v : pyval) (d : list (string * pyval))
  : list (string * pyval) :=
  match d with
  | [] => [(k, v)]
  | (k', v') :: d' =>
      if String.eqb k k' then (k, v) :: d' else (k', v') :: dict_set k v d'
  end.

(** [QueryDict.dict()]: one entry per key, the last value of the key. *)
Definition QueryDict_dict (q : list (string * string))
  : list (string * pyval) :=
  fold_left (fun d kv => dict_set (fst kv) (PyStr (snd kv)) d) q [].

(** [JsonResponse(data, status=status)], django/http/response.py:
    [safe=True] refuses a [data] that is not a dict with [TypeError]; then
    [json.dumps] raises [TypeError] on what it cannot encode; then
    [HttpResponseBase.__init__] keeps the default 200 when [status] is
    [None], and otherwise takes [int(status)] ([TypeError] when that fails)
    and raises [ValueError] unless it is in 100..599. *)
Definition JsonResponse (data : pyval) (status : pyval)
  : outcome HttpResponse :=
  match data with
  | PyDict _ =>
      match json_dumps data with
      | None => Raise TypeError
      | Some j =>
          match status with
          | PyNone => Return (mkResponse 200 (JsonContent j))
          | _ =>
              match py_int status with
              | None => Raise TypeError
              | Some n =>
                  if ((100 <=? n) && (n <=? 599))%Z
                  then Return (mkResponse n (JsonContent j))
                  else Raise (OtherException "ValueError")
              end
          end
      end
  | _ => Raise TypeError
  end.

(** The handlers a view class defines, by verb ([getattr(self, verb, ...)]).
    [kwargs] is what the URL pattern captured: [Some pk] on the item
    pattern, [None] on the collection pattern. *)
Record View (S : Type) : Type := mkView {
  get : option (option string -> M S pyval);
  post : option (option string -> M S pyval);
  put : option (option string -> M S pyval);
  patch : option (option string -> M S pyval);
  delete : option (option string -> M S pyval);
  head : option (option string -> M S pyval);
  options : option (option string -> M S pyval);
  trace : option (option string -> M S pyval)
}.
Arguments mkView {S}.
Arguments get {S}.
Arguments post {S}.
Arguments put {S}.
Arguments patch {S}.
Arguments delete {S}.
Arguments head {S}.
Arguments options {S}.
Arguments trace {S}.

(** [View.http_method_not_allowed]: an [HttpResponseNotAllowed] object. *)
Definition http_method_not_allowed {S} : M S pyval :=
  ret (PyResponse (mkResponse 405 (RawContent EmptyString))).

(** [View.options]: an empty [HttpResponse] with an [Allow] header. *)
Definition View_options {S} (kwargs : option string) : M S pyval :=
  ret (PyResponse (mkResponse 200 (RawContent EmptyString))).

(** [View.dispatch]: the handler named after the verb, or
    [http_method_not_allowed]. *)
Definition View_dispatch {S} (v : View S) (m : http_method)
    (kwargs : option string) : M S pyval :=
  let handler :=
    match m with
    | Get => get v | Post => post v | Put => put v | Patch => patch v
    | Delete => delete v | Head => head v | Options => options v
    | Trace => trace v
    | Other _ => None
    end in
  match handler with
  | Some h => h kwargs
  | None => http_method_not_allowed
  end.

(** [django.urls.path(route, view, name=name)]: a URL pattern bound to the
    view of class [K]. *)
Module urls.

Record URLPattern (K : Type) : Type := path {
  route : string;
  callback : K;
  name : string
}.
Arguments path {K}.
Arguments route {K}.
Arguments callback {K}.
Arguments name {K}.

End urls.

End django.

Import django.

(* ===================================================================== *)
(** ** brapi/exceptions.py                                                *)
(* ===================================================================== *)

Module exceptions.

(** [APIException(code, message=None, status_code=None)]: an argument left
    out ([None] here) takes its default, Python's [None]. *)
Definition APIException (code : pyval) (message status_code : option pyval)
  : exn :=
  python.APIException code (default PyNone message)
                      (default PyNone status_code).

End exceptions.

(* ===================================================================== *)
(** ** brapi/decorators.py                                                *)
(* ===================================================================== *)

Module decorators.

(** A pydantic model class, as its constructor, called with keyword arguments: the
    validated instance, or the exception it raises. Validation is taken as
    a function of the keyword arguments alone: a model whose validators read
    or write anything else is outside this embedding, and no statement below
    is about what a schema does to the world. *)
Definition schema : Type := list (string * pyval) -> outcome pyval.

(** A Python function object: the attributes set on it and its code. *)
Record function (T : Type) : Type := def {
  attrs : gmap string schema;
  code : T
}.
Arguments def {T}.
Arguments attrs {T}.
Arguments code {T}.

Definition setattr {T} (f : function T) (name : string) (v : schema)
  : function T :=
  def (<[name := v]> (attrs f)) (code f).

Definition getattr {T} (f : function T) (name : string) : option schema :=
  attrs f !! name.

(** [validate(query, body)(view_func)]; [None] is an argument left at its
    default, which [if query:] / [if body:] skip. *)
Definition validate {T} (query body : option schema)
    (view_func : function T) : function T :=
  let view_func :=
    match query with
    | Some q => setattr view_func "validate_query" q
    | None => view_func
    end in
  let view_func :=
    match body with
    | Some b => setattr view_func "validate_body" b
    | None => view_func
    end in
  view_func.

End decorators.

Import decorators.

(* ===================================================================== *)
(** ** brapi/api.py                                                       *)
(* ===================================================================== *)

Module api.

Inductive log_level : Type := INFO | WARNING | ERROR.

(** The log template of the final [except] clause of [dispatch]: its two
    placeholders are separated by a line feed (character 10). *)
Definition api_call_failed : string :=
  "API call failed: %s" ++ String (ascii_of_nat 10) "%s".

(** The function members of a [BaseAPI] instance that the handlers name:
    the five operations, and the [put] handler itself. *)
Inductive member : Type :=
| self_create | self_list | self_retrieve | self_update | self_destroy
| self_put.

(** What a request leaves behind, in order: log records, hook and operation
    calls, and the parsing steps of [_validate]. *)
Inductive event : Type :=
| Log (level : log_level) (template : string)
| Authenticate
| Validate
| Validator (function : member)
| ParseQuery
| QuerySchema
| ParseJsonBody
| ParseFormBody
| BodySchema
| Invoke (operation : member) (pk : option string).

Section BaseAPI.

(** Whatever the methods of a subclass read and write besides the request
    (database, caches, ...). *)
Context {W : Type}.

(** The code of an overridable method: it runs on the world and the request
    it was handed, may change both, and returns or raises. *)
Definition user_code (A : Type) : Type := M (W * HttpRequest) A.

Record state : Type := mkState {
  world : W;
  request : HttpRequest;
  events : list event
}.

Definition run {A : Type} (f : user_code A) : M state A :=
  fun s => match f (world s, request s) with
           | (o, (w, r)) => (o, mkState w r (events s))
           end.

Definition emit (e : event) : M state unit :=
  fun s => (Return tt, mkState (world s) (request s) (events s ++ [e])).

Definition get_request : M state HttpRequest :=
  fun s => (Return (request s), s).

Definition set_request (f : HttpRequest -> HttpRequest) : M state unit :=
  fun s => (Return tt, mkState (world s) (f (request s)) (events s)).

(** A subclass of [BaseAPI]: the five operations (function objects, so that
    [decorators.validate] can mark them), the two hooks, and the attributes
    that were set on the [put] handler. [list_] is the method [list]. *)
Record BaseAPI : Type := class {
  create : function (user_code pyval);
  list_ : function (user_code pyval);
  retrieve : function (string -> user_code pyval);
  update : function (string -> user_code pyval);
  destroy : function (string -> user_code pyval);
  authenticate : user_code unit;
  validate : user_code unit;
  put_attrs : gmap string schema
}.

(** [BaseAPI] itself: nothing overridden, nothing decorated. *)
Definition base : BaseAPI :=
  class (def ∅ (raise NotImplementedError))
        (def ∅ (raise NotImplementedError))
        (def ∅ (fun _ => raise NotImplementedError))
        (def ∅ (fun _ => raise NotImplementedError))
        (def ∅ (fun _ => raise NotImplementedError))
        (ret tt)
        (ret tt)
        ∅.

(** The attributes of the function object [getattr(self, name)]. *)
Definition member_attrs (self : BaseAPI) (f : member) : gmap string schema :=
  match f with
  | self_create => attrs (create self)
  | self_list => attrs (list_ self)
  | self_retrieve => attrs (retrieve self)
  | self_update => attrs (update self)
  | self_destroy => attrs (destroy self)
  | self_put => put_attrs self
  end.

Definition body_method (m : http_method) : bool :=
  match m with Post | Put | Patch => true | _ => false end.

(** [BaseAPI._validate(self, function, request)] *)
Definition _validate (self : BaseAPI) (function : member) : M state unit :=
  emit (Validator function) >>
  let query_model := member_attrs self function !! "validate_query" in
  let body_model := member_attrs self function !! "validate_body" in
  let* validated_query :=
    match query_model with
    | Some query_model =>
        let* request := get_request in
        emit ParseQuery >>
        let query_data := QueryDict_dict (GET request) in
        emit QuerySchema >>
        lift (query_model query_data)
    | None => ret PyNone
    end in
  let* validated_body :=
    match body_model with
    | Some body_model =>
        let* request := get_request in
        if body_method (method request) then
          let* body_data :=
            if String.eqb (content_type request) "application/json" then
              emit ParseJsonBody >>
              match body request with
              | NotUtf8 => raise (OtherException "UnicodeDecodeError")
              | NotJson => raise JSONDecodeError
              | JsonText v => ret v
              end
            else
              emit ParseFormBody >>
              ret (PyDict (QueryDict_dict (POST request))) in
          match body_data with
          | PyDict kwargs => emit BodySchema >> lift (body_model kwargs)
          | _ => raise TypeError
          end
        else ret PyNone
    | None => ret PyNone
    end in
  set_request (set_validated_body validated_body) >>
  set_request (set_validated_query validated_query).

(** Calling an operation method. *)
Definition invoke (op : member) (pk : option string) (f : user_code pyval)
  : M state pyval :=
  emit (Invoke op pk) >> run f.

(** *** HTTP method handlers *)

Definition get (self : BaseAPI) (kwargs : option string) : M state pyval :=
  _validate self self_retrieve >>
  match truthy_pk kwargs with
  | Some pk => invoke self_retrieve (Some pk) (code (retrieve self) pk)
  | None => invoke self_list None (code (list_ self))
  end.

(** [post(self, request)] takes no keyword argument: called with [pk] it
    raises [TypeError] before its body runs. *)
Definition post (self : BaseAPI) (kwargs : option string) : M state pyval :=
  match kwargs with
  | Some _ => raise TypeError
  | None =>
      _validate self self_create >>
      invoke self_create None (code (create self))
  end.

Definition put (self : BaseAPI) (kwargs : option string) : M state pyval :=
  match truthy_pk kwargs with
  | Some pk =>
      _validate self self_put >>
      invoke self_update (Some pk) (code (update self) pk)
  | None =>
      let* r := lift (JsonResponse
                  (PyDict [("error", PyStr "PUT method requires 'pk' parameter")])
                  (PyInt 400)) in
      ret (PyResponse r)
  end.

Definition delete (self : BaseAPI) (kwargs : option string) : M state pyval :=
  match truthy_pk kwargs with
  | Some pk =>
      _validate self self_put >>
      invoke self_destroy (Some pk) (code (destroy self) pk)
  | None =>
      let* r := lift (JsonResponse
                  (PyDict [("error", PyStr "DELETE method requires 'pk' parameter")])
                  (PyInt 400)) in
      ret (PyResponse r)
  end.

(** The handlers Django finds on an instance: the four above, [head] (which
    [View.setup] aliases to [get]) and [View.options]. *)
Definition as_view (self : BaseAPI) : View state :=
  mkView (Some (get self)) (Some (post self)) (Some (put self)) None
         (Some (delete self)) (Some (get self)) (Some View_options) None.

(** The [except] clauses of [dispatch], first match first. A
    [NonException] matches none of them and goes on. *)
Definition translate (e : exn) : M state HttpResponse :=
  match e with
  | ValidationError errors =>
      emit (Log WARNING "Invalid request method=%s path=%s exception=%s") >>
      lift (JsonResponse (PyDict [("error", errors)]) (PyInt 400))
  | JSONDecodeError =>
      emit (Log WARNING "Invalid request body method=%s path=%s") >>
      lift (JsonResponse (PyDict [("error", PyStr "Invalid JSON body")])
                         (PyInt 400))
  | NotImplementedError =>
      lift (JsonResponse
              (PyDict [("error", PyStr "Method not supported");
                       ("code", PyStr "method_not_supported")])
              (PyInt 400))
  | ObjectDoesNotExist =>
      lift (JsonResponse
              (PyDict [("error", PyStr "Object does not exist");
                       ("code", PyStr "not_found")])
              (PyInt 404))
  | APIException code message status_code =>
      lift (JsonResponse (PyDict [("error", message); ("code", code)])
                         status_code)
  | TypeError =>
      emit (Log ERROR "Return data %s invalid %s") >>
      lift (JsonResponse
              (PyDict [("error", PyStr "Server returned invalid data.");
                       ("code", PyStr "server_borked")])
              (PyInt 500))
  | OtherException _ =>
      emit (Log ERROR api_call_failed) >>
      lift (JsonResponse
              (PyDict [("error", PyStr "Unknown Error");
                       ("code", PyStr "server_borked")])
              (PyInt 500))
  | NonException class_name => raise (NonException class_name)
  end.

(** The body of the [try] block of [dispatch]. *)
Definition respond (self : BaseAPI) (kwargs : option string)
  : M state HttpResponse :=
  let* request := get_request in
  let* response := View_dispatch (as_view self) (method request) kwargs in
  match response with
  | PyTuple items =>
      match items with
      | [response; code] => lift (JsonResponse response code)
      | _ => raise (OtherException "ValueError")
      end
  | _ => lift (JsonResponse response PyNone)
  end.

(** [BaseAPI.dispatch(self, request, **kwargs)] *)
Definition dispatch (self : BaseAPI) (kwargs : option string)
  : M state HttpResponse :=
  emit (Log INFO "Incoming request method=%s path=%s") >>
  (emit Authenticate >> run (authenticate self)) >>
  (emit Validate >> run (validate self)) >>
  try_except (respond self kwargs) translate.

End BaseAPI.

Arguments state W : clear implicits.
Arguments BaseAPI W : clear implicits.

End api.

(* ===================================================================== *)
(** ** brapi/router.py                                                    *)
(* ===================================================================== *)

Module router.

(** A view class as [Router.add] sees it: its [__module__] and the class. *)
Record klass (K : Type) : Type := mkKlass {
  __module__ : string;
  as_view : K
}.
Arguments mkKlass {K}.
Arguments __module__ {K}.
Arguments as_view {K}.

(** [s.split(".")[0]]: what precedes the first dot, all of [s] when it has
    none. *)
Fixpoint first_segment (s : string) : string :=
  match s with
  | EmptyString => EmptyString
  | String a r => if Ascii.eqb a "." then EmptyString
                  else String a (first_segment r)
  end.

Record Router (K : Type) : Type := mkRouter {
  urlpatterns : list (urls.URLPattern K)
}.
Arguments mkRouter {K}.
Arguments urlpatterns {K}.

(** [Router.__init__] *)
Definition new {K} : Router K := mkRouter [].

(** [Router.add(self, klass)]; its log record is not part of the router. *)
Definition add {K} (self : Router K) (k : klass K) : Router K :=
  let module_name := __module__ k in
  let package_name := first_segment module_name in
  let base_url := package_name ++ "/" in
  let detail_url := package_name ++ "/<str:pk>/" in
  let self :=
    mkRouter (urlpatterns self ++
              [urls.path base_url (as_view k) (package_name ++ "-list")]) in
  let self :=
    mkRouter (urlpatterns self ++
              [urls.path detail_url (as_view k) (package_name ++ "-detail")]) in
  self.

(** The [urls] property. *)
Definition urls_ {K} (self : Router K) : list (urls.URLPattern K) :=
  urlpatterns self.

End router.

Import api.

(* ===================================================================== *)
(** ** Notions used in the statements                                     *)
(* ===================================================================== *)

(** [m] only ever appends events, and every event it appends satisfies
    [P]. *)
Definition appends {W : Type} (P : event -> Prop) {A : Type}
    (m : M (state W) A) : Prop :=
  forall s, exists new,
    events (snd (m s)) = (events s ++ new)%list /\ Forall P new.

(** An event that is not the call of a hook. *)
Definition not_hook (e : event) : Prop :=
  e <> Authenticate /\ e <> Validate.

(** An event that is not a parsing step of the query side. *)
Definition not_query_parsing (e : event) : Prop :=
  e <> ParseQuery /\ e <> QuerySchema.

(** An event that is not a parsing step of the body side. *)
Definition not_body_parsing (e : event) : Prop :=
  e <> ParseJsonBody /\ e <> ParseFormBody /\ e <> BodySchema.

(** What [dispatch] runs before it enters its [try] block: the entry log
    record and the two hooks. *)
Definition before_try {W : Type} (self : BaseAPI W) : M (state W) unit :=
  emit (Log INFO "Incoming request method=%s path=%s") >>
  (emit Authenticate >> run (authenticate self)) >>
  (emit Validate >> run (validate self)).

(** Whether a string has a dot in it. *)
Fixpoint has_dot (s : string) : bool :=
  match s with
  | EmptyString => false
  | String a r => Ascii.eqb a "." || has_dot r
  end.

(* ===================================================================== *)
(** ** A sample resource                                                  *)
(* ===================================================================== *)

Module widgets.

(** A request to the collection or item URL of [widgets], as Django hands
    it over: nothing validated yet. *)
Definition request (m : http_method) : HttpRequest :=
  mkRequest m "/widgets/" "application/json" [] [] (JsonText (PyDict []))
            None None.

Definition start (m : http_method) : state unit :=
  mkState tt (request m) [].

Definition ok : pyval := PyDict [("ok", PyBool true)].

(** A schema no input satisfies, and the error it reports. *)
Definition rejected : exn :=
  ValidationError (PyList [PyDict [("type", PyStr "missing")]]).

Definition Never : schema := fun _ => Raise rejected.

(** Authentication that turns every request down with a domain error. *)
Definition Guarded : BaseAPI unit :=
  class (create base) (list_ base) (retrieve base) (update base)
        (destroy base)
        (raise (exceptions.APIException (PyStr "unauthorized")
                  (Some (PyStr "Login required")) (Some (PyInt 401))))
        (validate base)
        (put_attrs (@base unit)).

(** The same, from the generic validation hook. *)
Definition Checked : BaseAPI unit :=
  class (create base) (list_ base) (retrieve base) (update base)
        (destroy base)
        (authenticate base)
        (raise (exceptions.APIException (PyStr "unauthorized")
                  (Some (PyStr "Login required")) (Some (PyInt 401))))
        (put_attrs (@base unit)).

(** [list], [update] and [destroy] each declare a schema that rejects every
    request; [retrieve] and [create] declare none. All five answer [ok]. *)
Definition Strict : BaseAPI unit :=
  class (def ∅ (ret ok))
        (decorators.validate (Some Never) None (def ∅ (ret ok)))
        (def ∅ (fun _ => ret ok))
        (decorators.validate None (Some Never) (def ∅ (fun _ => ret ok)))
        (decorators.validate (Some Never) None (def ∅ (fun _ => ret ok)))
        (ret tt)
        (ret tt)
        ∅.

(** [create] raises the given exception, [list] returns the given value. *)
Definition Widgets (raised : exn) (listed : pyval) : BaseAPI unit :=
  class (def ∅ (raise raised))
        (def ∅ (ret listed))
        (retrieve base) (update base) (destroy base)
        (ret tt)
        (ret tt)
        ∅.

End widgets.

(* ===================================================================== *)
(** ** What a computation adds to the event record                        *)
(* ===================================================================== *)

Section Appends.

Context {W : Type}.
Variable P : event -> Prop.

Lemma appends_ret {A} (a : A) : appends (W := W) P (ret a).
Proof. intros s. exists []. by rewrite app_nil_r. Qed.

Lemma appends_raise {A} (e : exn) : appends (W := W) P (@raise _ A e).
Proof. intros s. exists []. by rewrite app_nil_r. Qed.

Lemma appends_lift {A} (o : outcome A) : appends (W := W) P (lift o).
Proof. intros s. exists []. by rewrite app_nil_r. Qed.

Lemma appends_get_request : appends (W := W) P get_request.
Proof. intros s. exists []. by rewrite app_nil_r. Qed.

Lemma appends_set_request f : appends (W := W) P (set_request f).
Proof. intros s. exists []. by rewrite app_nil_r. Qed.

Lemma appends_run {A} (f : user_code A) : appends (W := W) P (run f).
Proof.
  intros s. exists []. unfold run.
  destruct (f (world s, request s)) as [o [w r]]. by rewrite app_nil_r.
Qed.

Lemma appends_emit e : P e -> appends (W := W) P (emit e).
Proof. intros He s. exists [e]. split; [done | by constructor]. Qed.

Lemma appends_bind {A B} (m : M (state W) A) (k : A -> M (state W) B) :
  appends (W := W) P m -> (forall a, appends (W := W) P (k a)) -> appends (W := W) P (bind m k).
Proof.
  intros Hm Hk s. unfold bind.
  destruct (Hm s) as (n1 & E1 & F1).
  destruct (m s) as [[a | e] s1]; simpl in *.
  - destruct (Hk a s1) as (n2 & E2 & F2).
    exists (n1 ++ n2)%list. rewrite E2, E1, app_assoc. split; [done |].
    by apply Forall_app.
  - by exists n1.
Qed.

Lemma appends_try {A} (m : M (state W) A) (h : exn -> M (state W) A) :
  appends (W := W) P m -> (forall e, appends (W := W) P (h e)) -> appends (W := W) P (try_except m h).
Proof.
  intros Hm Hh s. unfold try_except.
  destruct (Hm s) as (n1 & E1 & F1).
  destruct (m s) as [[a | e] s1]; simpl in *.
  - by exists n1.
  - destruct (Hh e s1) as (n2 & E2 & F2).
    exists (n1 ++ n2)%list. rewrite E2, E1, app_assoc. split; [done |].
    by apply Forall_app.
Qed.

End Appends.

(** Splits a computation along its binds and case distinctions; what is
    left are the side conditions [P e] of the events it emits. *)
Ltac appends_step :=
  first
    [ apply appends_ret | apply appends_raise | apply appends_lift
    | apply appends_get_request | apply appends_set_request
    | apply appends_run
    | apply appends_bind; [| intros ?]
    | apply appends_try; [| intros ?]
    | apply appends_emit
    | match goal with
      | |- appends _ (match ?x with _ => _ end) => destruct x eqn:?
      | |- appends _ (if ?x then _ else _) => destruct x eqn:?
      end ].

Ltac appends_auto := repeat appends_step.

(* ===================================================================== *)
(** ** The events of each part of the dispatcher                          *)
(* ===================================================================== *)

(** The side conditions: the emitted event is not one of the excluded
    ones. *)
Ltac event_side :=
  try solve [ split; [| try split]; intros; discriminate ].

Section Events.

Context {W : Type}.
Implicit Types (self : BaseAPI W) (kwargs : option string) (s : state W).

Lemma _validate_no_hooks self f : appends not_hook (_validate self f).
Proof. unfold _validate. cbv zeta. appends_auto; event_side. Qed.

Lemma handlers_no_hooks self m kwargs :
  appends not_hook (View_dispatch (as_view self) m kwargs).
Proof.
  pose proof (_validate_no_hooks self) as Hv.
  unfold View_dispatch, as_view; destruct m; simpl;
    unfold api.get, api.post, api.put, api.delete, invoke,
           View_options, http_method_not_allowed;
    repeat first [ apply Hv | appends_step ]; event_side.
Qed.

Lemma translate_no_hooks e : appends (W := W) not_hook (translate e).
Proof. unfold translate. appends_auto; event_side. Qed.

Lemma respond_no_hooks self kwargs : appends not_hook (respond self kwargs).
Proof.
  unfold respond.
  apply appends_bind; [apply appends_get_request | intros r].
  apply appends_bind; [apply handlers_no_hooks | intros v].
  appends_auto.
Qed.

Lemma try_block_no_hooks self kwargs :
  appends not_hook (try_except (respond self kwargs) translate).
Proof.
  apply appends_try; [apply respond_no_hooks | apply translate_no_hooks].
Qed.

End Events.

(* ===================================================================== *)
(** ** The shape of [dispatch]                                            *)
(* ===================================================================== *)

Section Dispatch.

Context {W : Type}.
Implicit Types (self : BaseAPI W) (kwargs : option string) (s : state W).

Lemma dispatch_split self kwargs s :
  dispatch self kwargs s
  = (before_try self >> try_except (respond self kwargs) translate) s.
Proof.
  unfold dispatch, before_try, bind, emit, run; simpl.
  destruct (authenticate self _) as [[[] | e] [w1 r1]]; simpl; [| done].
  destruct (validate self _) as [[[] | e] [w2 r2]]; simpl; done.
Qed.

(** When both hooks return, [dispatch] is its [try] block. *)
Lemma dispatch_after_hooks self kwargs s s1 :
  before_try self s = (Return tt, s1) ->
  dispatch self kwargs s = try_except (respond self kwargs) translate s1.
Proof.
  intros H. rewrite dispatch_split. unfold bind at 1. by rewrite H.
Qed.

(** An exception of a hook leaves [dispatch] as it is: no clause of the
    [try] block sees it. *)
Lemma hook_exception_escapes self kwargs s e s1 :
  before_try self s = (Raise e, s1) ->
  dispatch self kwargs s = (Raise e, s1).
Proof.
  intros H. rewrite dispatch_split. unfold bind at 1. by rewrite H.
Qed.

(** Once in the [try] block, every exception of the built-in kinds is
    answered: their translations cannot fail. *)
Lemma translate_answers e s :
  match e with
  | JSONDecodeError | NotImplementedError | ObjectDoesNotExist | TypeError
  | OtherException _ => is_return (fst (translate e s)) = true
  | _ => True
  end.
Proof. destruct e; done. Qed.

(** The [try] block as a whole: a response built by [respond] is the
    answer; an exception of a built-in kind is answered; what is left are
    the exceptions whose translation builds its response from values of the
    exception itself, and those that are no [Exception]. *)
Lemma try_block_outcome self kwargs s :
  match fst (respond self kwargs s) with
  | Return r => fst (try_except (respond self kwargs) translate s) = Return r
  | Raise (ValidationError _) | Raise (APIException _ _ _)
  | Raise (NonException _) => True
  | Raise _ =>
      is_return (fst (try_except (respond self kwargs) translate s)) = true
  end.
Proof.
  unfold try_except. destruct (respond self kwargs s) as [[r | e] s1];
    [done | destruct e; done].
Qed.

(** An operation that raises makes its handler raise, and so the [try]
    block's body: the exception reaches [translate] as it was raised. *)
Lemma invoke_raises op pk (f : user_code pyval) s e w r :
  f (world s, request s) = (Raise e, (w, r)) ->
  invoke op pk f s = (Raise e, mkState w r (events s ++ [Invoke op pk])).
Proof. intros H. unfold invoke, bind, emit, run. simpl. by rewrite H. Qed.

Lemma handler_exception_reaches_translate self kwargs s e s1 :
  View_dispatch (as_view self) (method (request s)) kwargs s = (Raise e, s1) ->
  respond self kwargs s = (Raise e, s1).
Proof.
  intros H. unfold respond, bind at 1, get_request, bind at 1. by rewrite H.
Qed.

(** C7. For every controller, request and route arguments, [dispatch]
    first logs the request and calls the authentication hook; when that
    hook returns, the call of the validation hook follows at once; and every
    call of an operation method comes after both, in a part of the run in
    which no hook is called again. (When the authentication hook raises,
    nothing more runs.) The calls are those of the controller's own hooks:
    [authenticate self] runs on the world and the request [dispatch] was
    given, [validate self] on what the authentication hook left, and the
    [try] block, in which the handlers and with them the operations run,
    starts from what the validation hook left; an exception of either hook
    is the outcome of [dispatch], in the state that hook left. *)
Theorem hooks_run_before_operations self kwargs s :
  (exists tail,
    events (snd (dispatch self kwargs s))
    = (events s ++ Log INFO "Incoming request method=%s path=%s"
                 :: Authenticate :: tail)%list
    /\ (is_return (fst (authenticate self (world s, request s))) = true ->
        exists rest, tail = Validate :: rest /\ Forall not_hook rest)
    /\ (is_return (fst (authenticate self (world s, request s))) = false ->
        tail = [])
    /\ (forall op pk, In (Invoke op pk) tail ->
        exists rest, tail = Validate :: rest /\ Forall not_hook rest
                     /\ In (Invoke op pk) rest))
  /\ match authenticate self (world s, request s) with
     | (Raise e, (w1, r1)) =>
         dispatch self kwargs s
         = (Raise e,
            mkState w1 r1
              (events s ++ [Log INFO "Incoming request method=%s path=%s";
                            Authenticate]))
     | (Return _, (w1, r1)) =>
         match validate self (w1, r1) with
         | (Raise e, (w2, r2)) =>
             dispatch self kwargs s
             = (Raise e,
                mkState w2 r2
                  (events s ++ [Log INFO "Incoming request method=%s path=%s";
                                Authenticate; Validate]))
         | (Return _, (w2, r2)) =>
             dispatch self kwargs s
             = try_except (respond self kwargs) translate
                 (mkState w2 r2
                    (events s
                     ++ [Log INFO "Incoming request method=%s path=%s";
                         Authenticate; Validate]))
         end
     end.
Proof.
  split.
  - unfold dispatch, bind, emit, run; simpl.
    destruct (authenticate self _) as [[[] | e] [w1 r1]]; simpl.
    + destruct (validate self _) as [[[] | e] [w2 r2]]; simpl.
      * match goal with |- context [try_except _ _ ?s2] =>
          destruct (try_block_no_hooks self kwargs s2) as (new & E & F)
        end.
        simpl in E. exists (Validate :: new). rewrite E.
        rewrite <- !app_assoc. simpl. split_and!; eauto; try done.
        all: intros op pk [Hin | Hin]; [discriminate | eauto].
      * exists [Validate]. rewrite <- !app_assoc. simpl.
        split_and!; eauto; try done.
        all: intros op pk [Hin | []]; discriminate.
    + exists []. rewrite <- !app_assoc. simpl.
      split_and!; try done.
      all: intros op pk [].
  - unfold dispatch, bind, emit, run; simpl.
    destruct (authenticate self _) as [[[] | e] [w1 r1]]; simpl.
    + destruct (validate self _) as [[[] | e] [w2 r2]]; simpl;
        by rewrite <- !app_assoc.
    + by rewrite <- !app_assoc.
Qed.

End Dispatch.

(* ===================================================================== *)
(** ** Failures and the dispatcher boundary (C1)                          *)
(* ===================================================================== *)

(** C1. An exception raised by the authentication hook, or by the generic
    validation hook, is not caught by [dispatch]: on a controller whose hook
    raises an [APIException] with status 401, [dispatch] itself raises that
    exception and builds no response; the [try] block is never entered (no
    event follows the hook's call). *)
Theorem hook_failure_leaves_dispatch :
  dispatch widgets.Guarded None (widgets.start Get)
  = (Raise (APIException (PyStr "unauthorized") (PyStr "Login required")
                         (PyInt 401)),
     mkState tt (widgets.request Get)
             [Log INFO "Incoming request method=%s path=%s"; Authenticate])
  /\ dispatch widgets.Checked None (widgets.start Get)
  = (Raise (APIException (PyStr "unauthorized") (PyStr "Login required")
                         (PyInt 401)),
     mkState tt (widgets.request Get)
             [Log INFO "Incoming request method=%s path=%s"; Authenticate;
              Validate]).
Proof. split; vm_compute; reflexivity. Qed.

(* ===================================================================== *)
(** ** Which bindings the validator runs with (C2)                        *)
(* ===================================================================== *)

(** C2. On [widgets.Strict], the schemas declared on [list], [update] and
    [destroy] reject every request (the validator run with any of them
    raises), yet a GET on the collection, a PUT and a DELETE on an item are
    all answered 200 by the operation: GET validates with the bindings of
    [retrieve], PUT and DELETE with those of the [put] handler. *)
Theorem validator_runs_with_other_bindings :
  fst (_validate widgets.Strict self_list (widgets.start Get))
  = Raise widgets.rejected
  /\ fst (_validate widgets.Strict self_update (widgets.start Put))
     = Raise widgets.rejected
  /\ fst (_validate widgets.Strict self_destroy (widgets.start Delete))
     = Raise widgets.rejected
  /\ dispatch widgets.Strict None (widgets.start Get)
     = (Return (mkResponse 200 (JsonContent (JObj [("ok", JBool true)]))),
        mkState tt
          (set_validated_query PyNone
             (set_validated_body PyNone (widgets.request Get)))
          [Log INFO "Incoming request method=%s path=%s"; Authenticate;
           Validate; Validator self_retrieve; Invoke self_list None])
  /\ dispatch widgets.Strict (Some "7") (widgets.start Put)
     = (Return (mkResponse 200 (JsonContent (JObj [("ok", JBool true)]))),
        mkState tt
          (set_validated_query PyNone
             (set_validated_body PyNone (widgets.request Put)))
          [Log INFO "Incoming request method=%s path=%s"; Authenticate;
           Validate; Validator self_put; Invoke self_update (Some "7")])
  /\ dispatch widgets.Strict (Some "7") (widgets.start Delete)
     = (Return (mkResponse 200 (JsonContent (JObj [("ok", JBool true)]))),
        mkState tt
          (set_validated_query PyNone
             (set_validated_body PyNone (widgets.request Delete)))
          [Log INFO "Incoming request method=%s path=%s"; Authenticate;
           Validate; Validator self_put; Invoke self_destroy (Some "7")]).
Proof.
  split_and!; vm_compute; reflexivity.
Qed.

(* ===================================================================== *)
(** ** A side without a binding (C3)                                      *)
(* ===================================================================== *)

Section Validator.

Context {W : Type}.
Implicit Types (self : BaseAPI W) (f : member) (s : state W).

Lemma _validate_skips_query self f :
  member_attrs self f !! "validate_query" = None ->
  appends not_query_parsing (_validate self f).
Proof.
  intros Hq. unfold _validate, schema in *. rewrite Hq. cbv zeta.
  appends_auto; event_side.
Qed.

Lemma _validate_skips_body self f :
  member_attrs self f !! "validate_body" = None ->
  appends not_body_parsing (_validate self f).
Proof.
  intros Hb. unfold _validate, schema in *. rewrite Hb. cbv zeta.
  appends_auto; event_side.
Qed.

Ltac run_validate :=
  unfold _validate, schema, bind, emit, ret, raise, lift, get_request,
    set_request in *;
  simpl; repeat case_match; simpl in *; simplify_eq; try done.

Lemma _validate_query_slot self f s :
  member_attrs self f !! "validate_query" = None ->
  fst (_validate self f s) = Return tt ->
  validated_query (request (snd (_validate self f s))) = Some PyNone.
Proof. intros Hq. revert Hq. run_validate. Qed.

Lemma _validate_body_slot self f s :
  member_attrs self f !! "validate_body" = None ->
  fst (_validate self f s) = Return tt ->
  validated_body (request (snd (_validate self f s))) = Some PyNone.
Proof. intros Hb. revert Hb. run_validate. Qed.

(** With no binding on either side the validator cannot fail. *)
Lemma _validate_unbound_returns self f s :
  member_attrs self f !! "validate_query" = None ->
  member_attrs self f !! "validate_body" = None ->
  fst (_validate self f s) = Return tt.
Proof. intros Hq Hb. revert Hq Hb. run_validate. Qed.

(** A validator that raises has not touched the request. *)
Lemma _validate_raise_keeps_request self f s e :
  fst (_validate self f s) = Raise e ->
  request (snd (_validate self f s)) = request s.
Proof. run_validate. Qed.

(** C3, as the code has it. When the function handed to the validator
    carries no query (respectively body) binding, the validator takes no
    parsing step of that side, and when it returns it has set the request's
    validated-query (respectively validated-body) attribute to Python's
    [None]: the attribute exists afterwards and holds the null value. *)
Theorem unbound_side_is_set_to_None self f s :
  (member_attrs self f !! "validate_query" = None ->
     (exists new, events (snd (_validate self f s)) = (events s ++ new)%list
                  /\ Forall not_query_parsing new)
     /\ (fst (_validate self f s) = Return tt ->
         validated_query (request (snd (_validate self f s)))
         = Some PyNone))
  /\ (member_attrs self f !! "validate_body" = None ->
     (exists new, events (snd (_validate self f s)) = (events s ++ new)%list
                  /\ Forall not_body_parsing new)
     /\ (fst (_validate self f s) = Return tt ->
         validated_body (request (snd (_validate self f s)))
         = Some PyNone)).
Proof.
  split; intros H; split.
  - by apply _validate_skips_query.
  - by apply _validate_query_slot.
  - by apply _validate_skips_body.
  - by apply _validate_body_slot.
Qed.

End Validator.

(** C3 at [BaseAPI] itself, a POST to [create]: both sides are unbound, the
    validator returns, and both attributes hold [None]. *)
Lemma unbound_side_is_set_to_None_witness :
  fst (_validate base self_create (widgets.start Post)) = Return tt
  /\ validated_query
       (request (snd (_validate base self_create (widgets.start Post))))
     = Some PyNone
  /\ validated_body
       (request (snd (_validate base self_create (widgets.start Post))))
     = Some PyNone.
Proof.
  destruct (unbound_side_is_set_to_None base self_create (widgets.start Post))
    as [Hq Hb].
  split; [vm_compute; reflexivity |].
  split.
  - apply Hq; vm_compute; reflexivity.
  - apply Hb; vm_compute; reflexivity.
Defined.

(** C3 as stated fails: [create] of [BaseAPI] has no binding, the request
    arrives with neither attribute, and after the validator both attributes
    are there, set to [None]. *)
Lemma unbound_slot_does_not_stay_unset :
  member_attrs (@base unit) self_create !! "validate_query" = None
  /\ member_attrs (@base unit) self_create !! "validate_body" = None
  /\ validated_query (request (widgets.start Post)) = None
  /\ validated_body (request (widgets.start Post)) = None
  /\ validated_query
       (request (snd (_validate base self_create (widgets.start Post))))
     = Some PyNone
  /\ validated_body
       (request (snd (_validate base self_create (widgets.start Post))))
     = Some PyNone.
Proof. split_and!; vm_compute; reflexivity. Qed.

(* ===================================================================== *)
(** ** Routing (C4)                                                       *)
(* ===================================================================== *)

Section Routing.

Context {W : Type}.
Implicit Types (self : BaseAPI W) (s : state W).

(** The operation each verb is routed to, given the identifier captured by
    the URL: the handlers call no other one, and call it once the validator
    has returned. *)
Lemma get_routes self kwargs s s1 :
  _validate self self_retrieve s = (Return tt, s1) ->
  api.get self kwargs s
  = match truthy_pk kwargs with
    | Some pk => invoke self_retrieve (Some pk) (code (retrieve self) pk) s1
    | None => invoke self_list None (code (list_ self)) s1
    end.
Proof. intros H. unfold api.get, bind at 1. rewrite H. by destruct truthy_pk. Qed.

Lemma post_routes self s s1 :
  _validate self self_create s = (Return tt, s1) ->
  api.post self None s = invoke self_create None (code (create self)) s1.
Proof. intros H. unfold api.post, bind at 1. by rewrite H. Qed.

Lemma put_routes self pk s s1 :
  truthy_str pk = true ->
  _validate self self_put s = (Return tt, s1) ->
  api.put self (Some pk) s
  = invoke self_update (Some pk) (code (update self) pk) s1.
Proof.
  intros Hpk H. unfold api.put, truthy_pk. rewrite Hpk.
  unfold bind at 1. by rewrite H.
Qed.

Lemma delete_routes self pk s s1 :
  truthy_str pk = true ->
  _validate self self_put s = (Return tt, s1) ->
  api.delete self (Some pk) s
  = invoke self_destroy (Some pk) (code (destroy self) pk) s1.
Proof.
  intros Hpk H. unfold api.delete, truthy_pk. rewrite Hpk.
  unfold bind at 1. by rewrite H.
Qed.

(** Without an identifier the [put] and [delete] handlers build their 400
    response and call nothing. *)
Lemma put_without_pk self s :
  api.put self None s
  = (Return (PyResponse (mkResponse 400 (JsonContent
       (JObj [("error", JStr "PUT method requires 'pk' parameter")])))), s).
Proof. reflexivity. Qed.

Lemma delete_without_pk self s :
  api.delete self None s
  = (Return (PyResponse (mkResponse 400 (JsonContent
       (JObj [("error", JStr "DELETE method requires 'pk' parameter")])))), s).
Proof. reflexivity. Qed.

(** What [dispatch] makes of a handler that returns a response object: the
    object is handed to [JsonResponse] as data, which raises [TypeError],
    and the answer is the 500 of the [TypeError] clause. *)
Lemma response_object_becomes_500 self kwargs s s1 s2 r :
  before_try self s = (Return tt, s1) ->
  View_dispatch (as_view self) (method (request s1)) kwargs s1
  = (Return (PyResponse r), s2) ->
  dispatch self kwargs s
  = (Return (mkResponse 500 (JsonContent
       (JObj [("error", JStr "Server returned invalid data.");
              ("code", JStr "server_borked")]))),
     mkState (world s2) (request s2)
             (events s2 ++ [Log ERROR "Return data %s invalid %s"])).
Proof.
  intros Hh Hv. rewrite (dispatch_after_hooks _ _ _ _ Hh).
  unfold try_except, respond, bind at 1, get_request, bind at 1.
  by rewrite Hv.
Qed.

End Routing.

(** C4. A PUT, and a DELETE, without an identifier: the handler returns its
    400 response and no operation runs, but the answer of [dispatch] is
    status 500 with the body of the [TypeError] clause, not the 400. *)
Theorem put_without_identifier_answers_500 :
  fst (api.put (@base unit) None (widgets.start Put))
  = Return (PyResponse (mkResponse 400 (JsonContent
      (JObj [("error", JStr "PUT method requires 'pk' parameter")]))))
  /\ dispatch (@base unit) None (widgets.start Put)
     = (Return (mkResponse 500 (JsonContent
          (JObj [("error", JStr "Server returned invalid data.");
                 ("code", JStr "server_borked")]))),
        mkState tt (widgets.request Put)
          [Log INFO "Incoming request method=%s path=%s"; Authenticate;
           Validate; Log ERROR "Return data %s invalid %s"])
  /\ fst (api.delete (@base unit) None (widgets.start Delete))
     = Return (PyResponse (mkResponse 400 (JsonContent
         (JObj [("error", JStr "DELETE method requires 'pk' parameter")]))))
  /\ dispatch (@base unit) None (widgets.start Delete)
     = (Return (mkResponse 500 (JsonContent
          (JObj [("error", JStr "Server returned invalid data.");
                 ("code", JStr "server_borked")]))),
        mkState tt (widgets.request Delete)
          [Log INFO "Incoming request method=%s path=%s"; Authenticate;
           Validate; Log ERROR "Return data %s invalid %s"]).
Proof. split_and!; vm_compute; reflexivity. Qed.

(* ===================================================================== *)
(** ** Translating outcomes (C5, C6, C10)                                 *)
(* ===================================================================== *)

Section Translation.

Context {W : Type}.
Implicit Types (self : BaseAPI W) (kwargs : option string) (s : state W).

(** The JSON object of a two-field dict. *)
Lemma json_dumps_error_code message code jm jc :
  json_dumps message = Some jm ->
  json_dumps code = Some jc ->
  json_dumps (PyDict [("error", message); ("code", code)])
  = Some (JObj [("error", jm); ("code", jc)]).
Proof. intros Hm Hc. simpl. by rewrite Hm, Hc. Qed.

(** C5, as the code has it. When both hooks return and the [try] block
    raises an [APIException] whose status is an integer [S] from 100 to 599
    and whose code and message the JSON encoder accepts, [dispatch] returns
    the response with status exactly [S] and the body with the message under
    "error" and the code under "code". *)
Theorem api_exception_is_translated self kwargs s s1 s2
    (code message : pyval) (S : Z) (jc jm : json) :
  before_try self s = (Return tt, s1) ->
  respond self kwargs s1
  = (Raise (exceptions.APIException code (Some message) (Some (PyInt S))),
     s2) ->
  100 <= S <= 599 ->
  json_dumps code = Some jc ->
  json_dumps message = Some jm ->
  dispatch self kwargs s
  = (Return (mkResponse S
       (JsonContent (JObj [("error", jm); ("code", jc)]))), s2).
Proof.
  intros Hh Hr HS Hc Hm. rewrite (dispatch_after_hooks _ _ _ _ Hh).
  unfold try_except. rewrite Hr.
  unfold exceptions.APIException, translate, lift, JsonResponse.
  cbv beta iota delta [default id].
  rewrite (json_dumps_error_code _ _ _ _ Hm Hc). simpl.
  replace ((100 <=? S) && (S <=? 599))%Z with true; [done |].
  symmetry. apply andb_true_iff. split; apply Z.leb_le; lia.
Qed.

(** C10. When both hooks return and the [try] block raises an
    [APIException] built from a code alone, [dispatch] returns status 200
    with "error" null and the code under "code". *)
Theorem code_only_exception_answers_200 self kwargs s s1 s2
    (code : pyval) (jc : json) :
  before_try self s = (Return tt, s1) ->
  respond self kwargs s1
  = (Raise (exceptions.APIException code None None), s2) ->
  json_dumps code = Some jc ->
  exceptions.APIException code None None = APIException code PyNone PyNone
  /\ dispatch self kwargs s
     = (Return (mkResponse 200
          (JsonContent (JObj [("error", JNull); ("code", jc)]))), s2).
Proof.
  intros Hh Hr Hc. split; [done |].
  rewrite (dispatch_after_hooks _ _ _ _ Hh).
  unfold try_except. rewrite Hr.
  unfold exceptions.APIException, translate, lift, JsonResponse.
  cbv beta iota delta [default id].
  by rewrite (json_dumps_error_code PyNone code JNull jc eq_refl Hc).
Qed.

(** C6, as the code has it. When both hooks return and the handler returns
    a dict that the JSON encoder accepts, [dispatch] returns status 200 with
    that dict as the body. *)
Theorem returned_dict_answers_200 self kwargs s s1 s2
    (entries : list (string * pyval)) (j : json) :
  before_try self s = (Return tt, s1) ->
  View_dispatch (as_view self) (method (request s1)) kwargs s1
  = (Return (PyDict entries), s2) ->
  json_dumps (PyDict entries) = Some j ->
  dispatch self kwargs s = (Return (mkResponse 200 (JsonContent j)), s2).
Proof.
  intros Hh Hv Hj. rewrite (dispatch_after_hooks _ _ _ _ Hh).
  unfold try_except, respond, bind at 1, get_request, bind at 1.
  rewrite Hv. unfold lift, JsonResponse. by rewrite Hj.
Qed.

End Translation.

(** C5 at a POST whose [create] raises a 418. *)
Lemma api_exception_is_translated_witness :
  dispatch
    (widgets.Widgets
       (exceptions.APIException (PyStr "teapot")
          (Some (PyStr "short and stout")) (Some (PyInt 418)))
       PyNone)
    None (widgets.start Post)
  = (Return (mkResponse 418
       (JsonContent (JObj [("error", JStr "short and stout");
                           ("code", JStr "teapot")]))),
     mkState tt
       (set_validated_query PyNone
          (set_validated_body PyNone (widgets.request Post)))
       [Log INFO "Incoming request method=%s path=%s"; Authenticate;
        Validate; Validator self_create; Invoke self_create None]).
Proof.
  apply (api_exception_is_translated _ None (widgets.start Post)
           (mkState tt (widgets.request Post)
              [Log INFO "Incoming request method=%s path=%s"; Authenticate;
               Validate])
           _ (PyStr "teapot") (PyStr "short and stout") 418).
  - vm_compute; reflexivity.
  - vm_compute; reflexivity.
  - lia.
  - reflexivity.
  - reflexivity.
Defined.

(** C5 as stated fails: [create] raises an [APIException] with status 42,
    a code and a message; no response with status 42 comes back, [dispatch]
    raises the [ValueError] of the response constructor. *)
Lemma status_42_is_not_answered :
  fst (dispatch
         (widgets.Widgets
            (exceptions.APIException (PyStr "teapot")
               (Some (PyStr "short and stout")) (Some (PyInt 42)))
            PyNone)
         None (widgets.start Post))
  = Raise (OtherException "ValueError").
Proof. vm_compute; reflexivity. Qed.

(** C10 at a POST whose [create] raises [APIException("teapot")]. *)
Lemma code_only_exception_answers_200_witness :
  exceptions.APIException (PyStr "teapot") None None
  = APIException (PyStr "teapot") PyNone PyNone
  /\ dispatch
       (widgets.Widgets (exceptions.APIException (PyStr "teapot") None None)
                        PyNone)
       None (widgets.start Post)
     = (Return (mkResponse 200
          (JsonContent (JObj [("error", JNull); ("code", JStr "teapot")]))),
        mkState tt
          (set_validated_query PyNone
             (set_validated_body PyNone (widgets.request Post)))
          [Log INFO "Incoming request method=%s path=%s"; Authenticate;
           Validate; Validator self_create; Invoke self_create None]).
Proof.
  apply (code_only_exception_answers_200 _ None (widgets.start Post)
           (mkState tt (widgets.request Post)
              [Log INFO "Incoming request method=%s path=%s"; Authenticate;
               Validate])
           _ (PyStr "teapot")).
  - vm_compute; reflexivity.
  - vm_compute; reflexivity.
  - reflexivity.
Defined.

(** C6 at a GET on the collection whose [list] returns a dict. *)
Lemma returned_dict_answers_200_witness :
  dispatch (widgets.Widgets TypeError widgets.ok) None (widgets.start Get)
  = (Return (mkResponse 200 (JsonContent (JObj [("ok", JBool true)]))),
     mkState tt
       (set_validated_query PyNone
          (set_validated_body PyNone (widgets.request Get)))
       [Log INFO "Incoming request method=%s path=%s"; Authenticate;
        Validate; Validator self_retrieve; Invoke self_list None]).
Proof.
  apply (returned_dict_answers_200 _ None (widgets.start Get)
           (mkState tt (widgets.request Get)
              [Log INFO "Incoming request method=%s path=%s"; Authenticate;
               Validate])
           _ [("ok", PyBool true)]).
  - vm_compute; reflexivity.
  - vm_compute; reflexivity.
  - reflexivity.
Defined.

(** C6 as stated fails: [list] returns a list of one item, which is not a
    pair and is JSON-serializable, and the answer is status 500. *)
Lemma returned_list_answers_500 :
  json_dumps (PyList [PyDict [("id", PyInt 1)]])
  = Some (JArr [JObj [("id", JNum 1)]])
  /\ fst (dispatch
            (widgets.Widgets TypeError (PyList [PyDict [("id", PyInt 1)]]))
            None (widgets.start Get))
     = Return (mkResponse 500 (JsonContent
         (JObj [("error", JStr "Server returned invalid data.");
                ("code", JStr "server_borked")]))).
Proof. split; vm_compute; reflexivity. Qed.

(** Other returned values that are JSON-serializable and no pair: a string,
    [None], a tuple of three. None of them is answered 200. *)
Lemma returned_scalars_answer_500 :
  (forall v, v = PyStr "done" \/ v = PyNone \/ v = PyInt 7 ->
     status_code <$> fst_return
       (fst (dispatch (widgets.Widgets TypeError v) None (widgets.start Get)))
     = Some 500)
  /\ fst (dispatch
            (widgets.Widgets TypeError (PyTuple [PyInt 1; PyInt 2; PyInt 3]))
            None (widgets.start Get))
     = Return (mkResponse 500 (JsonContent
         (JObj [("error", JStr "Unknown Error");
                ("code", JStr "server_borked")]))).
Proof.
  split; [| vm_compute; reflexivity].
  intros v [-> | [-> | ->]]; vm_compute; reflexivity.
Qed.

(* ===================================================================== *)
(** ** The router (C8)                                                    *)
(* ===================================================================== *)

Section Router.

Import router.

Lemma first_segment_no_dot s : has_dot (first_segment s) = false.
Proof.
  induction s as [| a r IH]; [done |]. simpl.
  destruct (Ascii.eqb a ".") eqn:E; [done |]. simpl. by rewrite E.
Qed.

(** [first_segment s] is the part of [s] before its first dot. *)
Lemma first_segment_prefix s :
  exists rest,
    s = (first_segment s ++ rest)%string
    /\ (rest = EmptyString \/ exists r, rest = String "." r).
Proof.
  induction s as [| a r (rest & E & Hrest)].
  - exists EmptyString. by split; [| left].
  - simpl. destruct (Ascii.eqb a ".") eqn:Ea.
    + apply Ascii.eqb_eq in Ea as ->.
      exists (String "." r). split; [done | right; by exists r].
    + exists rest. split; [exact (f_equal (String a) E) | done].
Qed.

(** C8. [add] takes as resource name the part of the controller's module
    path before the first dot, and appends to the table exactly two
    entries, in this order: the collection pattern [resource/] and the item
    pattern [resource/<str:pk>/], both with the view of that controller. *)
Theorem add_appends_collection_and_item {K} (self : Router K) (k : klass K) :
  let resource := first_segment (__module__ k) in
  urlpatterns (add self k)
  = (urlpatterns self
     ++ [urls.path (resource ++ "/")%string (as_view k)
                   (resource ++ "-list")%string;
         urls.path (resource ++ "/<str:pk>/")%string (as_view k)
                   (resource ++ "-detail")%string])%list
  /\ length (urlpatterns (add self k)) = (length (urlpatterns self) + 2)%nat
  /\ has_dot resource = false
  /\ exists rest,
       __module__ k = (resource ++ rest)%string
       /\ (rest = EmptyString \/ exists r, rest = String "." r).
Proof.
  simpl. split_and!.
  - unfold add. simpl. by rewrite <- app_assoc.
  - unfold add. simpl. rewrite !length_app. simpl. lia.
  - apply first_segment_no_dot.
  - apply first_segment_prefix.
Qed.

End Router.

(* ===================================================================== *)
(** ** Declaring bindings twice (C9)                                      *)
(* ===================================================================== *)

(** C9. For a function decorated twice, on each side the schema of the
    later declaration is the one bound afterwards, whatever the earlier
    declaration bound there; the decorator cannot fail and leaves the
    function's code alone. (A side the later declaration does not name keeps
    what was bound before.) *)
Theorem later_declaration_wins {T} (f : function T)
    (q1 b1 q2 b2 : option schema) (q b : schema) :
  getattr (decorators.validate (Some q) b2 (decorators.validate q1 b1 f))
          "validate_query" = Some q
  /\ getattr (decorators.validate q2 (Some b) (decorators.validate q1 b1 f))
             "validate_body" = Some b
  /\ getattr (decorators.validate None b2 (decorators.validate q1 b1 f))
             "validate_query"
     = getattr (decorators.validate q1 b1 f) "validate_query"
  /\ getattr (decorators.validate q2 None (decorators.validate q1 b1 f))
             "validate_body"
     = getattr (decorators.validate q1 b1 f) "validate_body"
  /\ code (decorators.validate q2 b2 (decorators.validate q1 b1 f)) = code f.
Proof.
  unfold decorators.validate, getattr, setattr, schema in *.
  split_and!; destruct q1, b1, q2, b2; simpl; by simplify_map_eq.
Qed.

(* ===================================================================== *)
(** ** A second sample resource, with schemas                             *)
(* ===================================================================== *)

Module gadgets.

(** A body schema with one required string field [name]; the validated
    instance is shown as the dict of its fields. *)
Definition Named : schema :=
  fun kwargs =>
    match kwargs with
    | [("name", PyStr n)] => Return (PyDict [("name", PyStr n)])
    | _ => Raise (ValidationError
                    (PyList [PyDict [("type", PyStr "string_type");
                                     ("loc", PyList [PyStr "name"])]]))
    end.

(** A query schema with one required field [page]. *)
Definition Paged : schema :=
  fun kwargs =>
    match kwargs with
    | [("page", PyStr p)] => Return (PyDict [("page", PyStr p)])
    | _ => Raise (ValidationError
                    (PyList [PyDict [("type", PyStr "missing");
                                     ("loc", PyList [PyStr "page"])]]))
    end.

(** [create] declares [Named] for its body and returns the validated body
    with status 201; [list] declares [Paged] for its query and returns the
    validated query; [retrieve] finds nothing, [update] returns a pair with
    status 700, and [destroy] is interrupted. *)
Definition Gadgets : BaseAPI unit :=
  class (decorators.validate None (Some Named)
           (def ∅ (fun wr =>
              (Return (PyTuple [default PyNone (validated_body (snd wr));
                                PyInt 201]), wr))))
        (decorators.validate (Some Paged) None
           (def ∅ (fun wr =>
              (Return (default PyNone (validated_query (snd wr))), wr))))
        (def ∅ (fun _ => raise ObjectDoesNotExist))
        (def ∅ (fun _ => ret (PyTuple [PyDict []; PyInt 700])))
        (def ∅ (fun _ => raise (NonException "KeyboardInterrupt")))
        (ret tt)
        (ret tt)
        ∅.

(** A request with the given verb, content type, query string, form data
    and body. *)
Definition request (m : http_method) (ctype : string)
    (query form : list (string * string)) (b : raw_body) : HttpRequest :=
  mkRequest m "/gadgets/" ctype query form b None None.

Definition start (r : HttpRequest) : state unit := mkState tt r [].

End gadgets.

(* ===================================================================== *)
(** ** Further properties of the dispatcher                               *)
(* ===================================================================== *)

(** The state in which the [try] block starts when both hooks of
    [BaseAPI] itself (which do nothing) have run. *)
Definition hooks_passed {W : Type} (s : state W) : state W :=
  mkState (world s) (request s)
          (events s ++ [Log INFO "Incoming request method=%s path=%s";
                        Authenticate; Validate]).

(** The verbs and route arguments the handlers pass on to an operation. *)
Definition routed (m : http_method) (kwargs : option string) : bool :=
  match m with
  | Get | Head => true
  | Post => match kwargs with None => true | Some _ => false end
  | Put | Delete =>
      match truthy_pk kwargs with Some _ => true | None => false end
  | _ => false
  end.

(** The answers of the fixed [except] clauses. *)
Definition method_not_supported : HttpResponse :=
  mkResponse 400 (JsonContent (JObj [("error", JStr "Method not supported");
                                     ("code", JStr "method_not_supported")])).

Definition not_found : HttpResponse :=
  mkResponse 404 (JsonContent (JObj [("error", JStr "Object does not exist");
                                     ("code", JStr "not_found")])).

Definition invalid_json : HttpResponse :=
  mkResponse 400 (JsonContent (JObj [("error", JStr "Invalid JSON body")])).

Definition invalid_data : HttpResponse :=
  mkResponse 500 (JsonContent
    (JObj [("error", JStr "Server returned invalid data.");
           ("code", JStr "server_borked")])).

Definition unknown_error : HttpResponse :=
  mkResponse 500 (JsonContent (JObj [("error", JStr "Unknown Error");
                                     ("code", JStr "server_borked")])).

(** [s] with one more event. *)
Definition logged {W : Type} (e : event) (s : state W) : state W :=
  mkState (world s) (request s) (events s ++ [e]).

Section Outcomes.

Context {W : Type}.
Implicit Types (self : BaseAPI W) (kwargs : option string) (s : state W).

Lemma dispatch_translates self kwargs s s1 s2 e :
  before_try self s = (Return tt, s1) ->
  respond self kwargs s1 = (Raise e, s2) ->
  dispatch self kwargs s = translate e s2.
Proof.
  intros Hh Hr. rewrite (dispatch_after_hooks _ _ _ _ Hh).
  unfold try_except. by rewrite Hr.
Qed.

Lemma dispatch_wraps self kwargs s s1 s2 v :
  before_try self s = (Return tt, s1) ->
  View_dispatch (as_view self) (method (request s1)) kwargs s1
  = (Return v, s2) ->
  dispatch self kwargs s
  = try_except
      (match v with
       | PyTuple items =>
           match items with
           | [response; code] => lift (JsonResponse response code)
           | _ => raise (OtherException "ValueError")
           end
       | _ => lift (JsonResponse v PyNone)
       end) translate s2.
Proof.
  intros Hh Hv. rewrite (dispatch_after_hooks _ _ _ _ Hh).
  unfold try_except, respond, bind at 1, get_request, bind at 1.
  by rewrite Hv.
Qed.

Lemma before_try_base s : before_try base s = (Return tt, hooks_passed s).
Proof.
  unfold before_try, hooks_passed, bind, emit, run. simpl.
  by rewrite <- !app_assoc.
Qed.

(** X1. [BaseAPI] with nothing overridden answers every request that the
    handlers route to an operation with status 400 and the code
    [method_not_supported], whatever the request carries. *)
Theorem base_answers_method_not_supported kwargs s :
  routed (method (request s)) kwargs = true ->
  fst (dispatch base kwargs s) = Return method_not_supported.
Proof.
  intros Hr.
  assert (exists s2,
    respond base kwargs (hooks_passed s) = (Raise NotImplementedError, s2))
    as [s2 H2].
  { unfold respond, bind at 1, get_request. simpl.
    destruct (method (request s)); try discriminate;
      destruct kwargs as [[| a pk] |]; try discriminate;
      eexists; vm_compute; reflexivity. }
  by rewrite (dispatch_translates _ _ _ _ _ _ (before_try_base s) H2).
Qed.

(** X2. When both hooks return and the handler raises the "does not exist"
    exception of the persistence layer, the answer is status 404 with the
    code [not_found], and nothing is logged. *)
Theorem missing_object_answers_404 self kwargs s s1 s2 :
  before_try self s = (Return tt, s1) ->
  View_dispatch (as_view self) (method (request s1)) kwargs s1
  = (Raise ObjectDoesNotExist, s2) ->
  dispatch self kwargs s = (Return not_found, s2).
Proof.
  intros Hh Hv.
  by rewrite (dispatch_translates _ _ _ _ _ _ Hh
                (handler_exception_reaches_translate _ _ _ _ _ Hv)).
Qed.

End Outcomes.

Lemma base_answers_method_not_supported_witness :
  fst (dispatch base (Some "7") (widgets.start Delete))
  = Return method_not_supported.
Proof. apply base_answers_method_not_supported. reflexivity. Defined.

Lemma missing_object_answers_404_witness :
  dispatch (widgets.Widgets ObjectDoesNotExist PyNone) None
           (widgets.start Post)
  = (Return not_found,
     mkState tt
       (set_validated_query PyNone
          (set_validated_body PyNone (widgets.request Post)))
       [Log INFO "Incoming request method=%s path=%s"; Authenticate;
        Validate; Validator self_create; Invoke self_create None]).
Proof.
  apply (missing_object_answers_404 _ None (widgets.start Post)
           (hooks_passed (widgets.start Post))).
  - vm_compute; reflexivity.
  - vm_compute; reflexivity.
Defined.

(* ===================================================================== *)
(** ** Further properties of the request validator                        *)
(* ===================================================================== *)

(** Opens [_validate] down to the state it computes. *)
Ltac open_validate :=
  unfold _validate, schema, bind, emit, ret, raise, lift, get_request,
    set_request in *;
  simpl in *.

Section ValidatorCases.

Context {W : Type}.
Implicit Types (self : BaseAPI W) (f : member) (s : state W).

(** The validator on a function with a query binding only. *)
Lemma _validate_query_only self f s (query_model : schema) :
  member_attrs self f !! "validate_query" = Some query_model ->
  member_attrs self f !! "validate_body" = None ->
  _validate self f s
  = match query_model (QueryDict_dict (GET (request s))) with
    | Return v =>
        (Return tt,
         mkState (world s)
           (set_validated_query v (set_validated_body PyNone (request s)))
           (events s ++ [Validator f; ParseQuery; QuerySchema]))
    | Raise e =>
        (Raise e,
         mkState (world s) (request s)
           (events s ++ [Validator f; ParseQuery; QuerySchema]))
    end.
Proof.
  intros Hq Hb. open_validate. rewrite Hq, Hb. simpl.
  rewrite <- !app_assoc. simpl. by destruct (query_model _).
Qed.

(** The validator on a function with a body binding only, for a verb that
    carries a body: what it hands to the schema. [None] is a body that
    never reaches the schema. *)
Lemma _validate_body_only self f s (body_model : schema) :
  member_attrs self f !! "validate_query" = None ->
  member_attrs self f !! "validate_body" = Some body_model ->
  body_method (method (request s)) = true ->
  _validate self f s
  = if String.eqb (content_type (request s)) "application/json" then
      match body (request s) with
      | NotUtf8 =>
          (Raise (OtherException "UnicodeDecodeError"),
           mkState (world s) (request s)
             (events s ++ [Validator f; ParseJsonBody]))
      | NotJson =>
          (Raise JSONDecodeError,
           mkState (world s) (request s)
             (events s ++ [Validator f; ParseJsonBody]))
      | JsonText (PyDict kwargs) =>
          match body_model kwargs with
          | Return v =>
              (Return tt,
               mkState (world s)
                 (set_validated_query PyNone
                    (set_validated_body v (request s)))
                 (events s ++ [Validator f; ParseJsonBody; BodySchema]))
          | Raise e =>
              (Raise e,
               mkState (world s) (request s)
                 (events s ++ [Validator f; ParseJsonBody; BodySchema]))
          end
      | JsonText _ =>
          (Raise TypeError,
           mkState (world s) (request s)
             (events s ++ [Validator f; ParseJsonBody]))
      end
    else
      match body_model (QueryDict_dict (POST (request s))) with
      | Return v =>
          (Return tt,
           mkState (world s)
             (set_validated_query PyNone (set_validated_body v (request s)))
             (events s ++ [Validator f; ParseFormBody; BodySchema]))
      | Raise e =>
          (Raise e,
           mkState (world s) (request s)
             (events s ++ [Validator f; ParseFormBody; BodySchema]))
      end.
Proof.
  intros Hq Hb Hm. open_validate. rewrite Hq, Hb. simpl. rewrite Hm.
  destruct (String.eqb _ _); simpl.
  - destruct (body (request s)) as [| | v]; [| | destruct v]; simpl;
      rewrite <- ?app_assoc; simpl; try done; try (case_match; done).
  - rewrite <- ?app_assoc. simpl. try done; try (case_match; done).
Qed.

End ValidatorCases.

Section ValidatorProperties.

Context {W : Type}.
Implicit Types (self : BaseAPI W) (f : member) (s : state W).

(** X3. With a query binding, the validator hands the schema the query
    string as a dict (one entry per key, the last value). When the schema
    raises, the validator raises the same exception at once: the request is
    untouched and the body is never parsed, whatever the body binding. When
    the schema returns and the validator returns, the request's
    [validated_query] is the schema's instance. *)
Theorem query_binding_decides self f s (query_model : schema) :
  member_attrs self f !! "validate_query" = Some query_model ->
  match query_model (QueryDict_dict (GET (request s))) with
  | Raise e =>
      _validate self f s
      = (Raise e,
         mkState (world s) (request s)
           (events s ++ [Validator f; ParseQuery; QuerySchema]))
  | Return v =>
      fst (_validate self f s) = Return tt ->
      validated_query (request (snd (_validate self f s))) = Some v
  end.
Proof.
  intros Hq. open_validate. rewrite Hq. simpl.
  destruct (query_model _); simpl.
  - repeat case_match; simpl in *; simplify_eq; done.
  - by rewrite <- !app_assoc.
Qed.

(** X4. A body binding, a verb with a body, the JSON content type and a
    body that is not JSON: the validator raises [JSONDecodeError] before
    the schema is run, and leaves the request untouched. *)
Theorem malformed_json_raises_before_schema self f s (body_model : schema) :
  member_attrs self f !! "validate_query" = None ->
  member_attrs self f !! "validate_body" = Some body_model ->
  body_method (method (request s)) = true ->
  content_type (request s) = "application/json" ->
  body (request s) = NotJson ->
  _validate self f s
  = (Raise JSONDecodeError,
     mkState (world s) (request s)
       (events s ++ [Validator f; ParseJsonBody])).
Proof.
  intros Hq Hb Hm Hc Hj.
  rewrite (_validate_body_only _ _ _ _ Hq Hb Hm), Hc, Hj. done.
Qed.

(** X5. The same with a body that is JSON but not an object (a list, a
    number, a string, null): the call of the schema raises [TypeError], the
    schema's own code is not run, and the request is untouched. *)
Theorem non_object_json_raises_type_error self f s (body_model : schema) v :
  member_attrs self f !! "validate_query" = None ->
  member_attrs self f !! "validate_body" = Some body_model ->
  body_method (method (request s)) = true ->
  content_type (request s) = "application/json" ->
  body (request s) = JsonText v ->
  (forall entries, v <> PyDict entries) ->
  _validate self f s
  = (Raise TypeError,
     mkState (world s) (request s)
       (events s ++ [Validator f; ParseJsonBody])).
Proof.
  intros Hq Hb Hm Hc Hj Hv.
  rewrite (_validate_body_only _ _ _ _ Hq Hb Hm), Hc, Hj. simpl.
  destruct v; try done. by destruct (Hv entries).
Qed.

(** X6. The same with a JSON object: the schema receives the object's
    fields; its instance becomes [validated_body] (and [validated_query] is
    set to [None]); what it raises is raised unchanged, with the request
    untouched. The form data is not read. *)
Theorem json_object_goes_to_body_schema self f s (body_model : schema)
    kwargs :
  member_attrs self f !! "validate_query" = None ->
  member_attrs self f !! "validate_body" = Some body_model ->
  body_method (method (request s)) = true ->
  content_type (request s) = "application/json" ->
  body (request s) = JsonText (PyDict kwargs) ->
  _validate self f s
  = match body_model kwargs with
    | Return v =>
        (Return tt,
         mkState (world s)
           (set_validated_query PyNone (set_validated_body v (request s)))
           (events s ++ [Validator f; ParseJsonBody; BodySchema]))
    | Raise e =>
        (Raise e,
         mkState (world s) (request s)
           (events s ++ [Validator f; ParseJsonBody; BodySchema]))
    end.
Proof.
  intros Hq Hb Hm Hc Hj.
  rewrite (_validate_body_only _ _ _ _ Hq Hb Hm), Hc, Hj. done.
Qed.

(** X7. With any other content type the schema receives the form data as a
    dict (one entry per key, the last value) and the raw body is not looked
    at: a body that is no JSON at all does not matter. *)
Theorem form_data_goes_to_body_schema self f s (body_model : schema) :
  member_attrs self f !! "validate_query" = None ->
  member_attrs self f !! "validate_body" = Some body_model ->
  body_method (method (request s)) = true ->
  content_type (request s) <> "application/json" ->
  _validate self f s
  = match body_model (QueryDict_dict (POST (request s))) with
    | Return v =>
        (Return tt,
         mkState (world s)
           (set_validated_query PyNone (set_validated_body v (request s)))
           (events s ++ [Validator f; ParseFormBody; BodySchema]))
    | Raise e =>
        (Raise e,
         mkState (world s) (request s)
           (events s ++ [Validator f; ParseFormBody; BodySchema]))
    end.
Proof.
  intros Hq Hb Hm Hc.
  rewrite (_validate_body_only _ _ _ _ Hq Hb Hm).
  by apply String.eqb_neq in Hc as ->.
Qed.

(** X8. For a verb other than POST, PUT and PATCH a declared body schema is
    not used: the validator takes no parsing step of the body side and,
    when it returns, [validated_body] is [None]. *)
Theorem bodyless_verbs_skip_body_schema self f s :
  body_method (method (request s)) = false ->
  (exists new,
     events (snd (_validate self f s)) = (events s ++ new)%list
     /\ Forall not_body_parsing new)
  /\ (fst (_validate self f s) = Return tt ->
      validated_body (request (snd (_validate self f s))) = Some PyNone).
Proof.
  intros Hm. open_validate.
  repeat case_match; simplify_eq; simpl in *; try congruence;
    rewrite <- ?app_assoc; simpl;
    (split; [eexists; split; [reflexivity | repeat constructor; done]
            | done]).
Qed.

(** X9. The validator writes nothing on the request but the two attributes
    it sets: the request's verb, path, content type, query string, form
    data and body are as before; and when it raises, the whole request is
    (no attribute has been set). *)
Theorem validator_keeps_rest_of_request self f s :
  method (request (snd (_validate self f s))) = method (request s)
  /\ path (request (snd (_validate self f s))) = path (request s)
  /\ content_type (request (snd (_validate self f s)))
     = content_type (request s)
  /\ GET (request (snd (_validate self f s))) = GET (request s)
  /\ POST (request (snd (_validate self f s))) = POST (request s)
  /\ body (request (snd (_validate self f s))) = body (request s)
  /\ (is_return (fst (_validate self f s)) = false ->
      request (snd (_validate self f s)) = request s).
Proof. open_validate. repeat case_match; simpl in *; simplify_eq; done. Qed.

(** X10. When the validator returns, both attributes exist on the request,
    whatever was bound and whatever the request carried before. *)
Theorem validator_sets_both_slots self f s :
  fst (_validate self f s) = Return tt ->
  is_Some (validated_query (request (snd (_validate self f s))))
  /\ is_Some (validated_body (request (snd (_validate self f s)))).
Proof.
  open_validate. repeat case_match; simpl in *; simplify_eq; try done;
    intros _; split; eexists; reflexivity.
Qed.

End ValidatorProperties.

(* ===================================================================== *)
(** ** Further properties of the outcome translation                      *)
(* ===================================================================== *)

(** The function whose bindings the handler of a verb hands to the
    validator. *)
Definition validated_with (m : http_method) : member :=
  match m with
  | Post => self_create
  | Put | Delete => self_put
  | _ => self_retrieve
  end.

(** An event that is not the call of an operation. *)
Definition not_invoke (e : event) : Prop := forall op pk, e <> Invoke op pk.

Section Translations.

Context {W : Type}.
Implicit Types (self : BaseAPI W) (kwargs : option string) (s : state W).

Lemma _validate_no_invoke self f : appends not_invoke (_validate self f).
Proof.
  unfold _validate. cbv zeta. appends_auto; intros op pk; discriminate.
Qed.

(** What the validator raises, the handler raises: no operation is
    called. *)
Lemma validator_exception_reaches_translate self kwargs s e s1 :
  routed (method (request s)) kwargs = true ->
  _validate self (validated_with (method (request s))) s = (Raise e, s1) ->
  respond self kwargs s = (Raise e, s1).
Proof.
  intros Hr Hv. apply handler_exception_reaches_translate.
  destruct (method (request s)); try discriminate; simpl in Hr, Hv;
    unfold View_dispatch, as_view; simpl;
    unfold api.get, api.post, api.put, api.delete;
    destruct kwargs as [pk |]; try discriminate;
    unfold truthy_pk in *; try (destruct (truthy_str pk); try discriminate);
    unfold bind at 1; by rewrite Hv.
Qed.

(** X11. When both hooks return and the validator run by the handler raises
    a [ValidationError] whose errors are JSON-serializable, the answer is
    status 400 with those errors under "error"; a warning is logged and no
    operation is called. *)
Theorem validation_failure_answers_400 self kwargs s s1 s2 errors j :
  before_try self s = (Return tt, s1) ->
  routed (method (request s1)) kwargs = true ->
  _validate self (validated_with (method (request s1))) s1
  = (Raise (ValidationError errors), s2) ->
  json_dumps errors = Some j ->
  dispatch self kwargs s
  = (Return (mkResponse 400 (JsonContent (JObj [("error", j)]))),
     logged (Log WARNING "Invalid request method=%s path=%s exception=%s")
            s2)
  /\ exists new, events s2 = (events s1 ++ new)%list /\ Forall not_invoke new.
Proof.
  intros Hh Hr Hv Hj. split.
  - rewrite (dispatch_translates _ _ _ _ _ _ Hh
               (validator_exception_reaches_translate _ _ _ _ _ Hr Hv)).
    unfold translate, bind, emit, lift, JsonResponse. simpl. by rewrite Hj.
  - destruct (_validate_no_invoke self
                (validated_with (method (request s1))) s1) as (new & E & F).
    rewrite Hv in E. eauto.
Qed.

(** X12. The same for a body that is not JSON: when the validator raises
    [JSONDecodeError] the answer is status 400 with the error
    "Invalid JSON body", and a warning is logged. *)
Theorem malformed_json_answers_400 self kwargs s s1 s2 :
  before_try self s = (Return tt, s1) ->
  routed (method (request s1)) kwargs = true ->
  _validate self (validated_with (method (request s1))) s1
  = (Raise JSONDecodeError, s2) ->
  dispatch self kwargs s
  = (Return invalid_json,
     logged (Log WARNING "Invalid request body method=%s path=%s") s2).
Proof.
  intros Hh Hr Hv.
  by rewrite (dispatch_translates _ _ _ _ _ _ Hh
                (validator_exception_reaches_translate _ _ _ _ _ Hr Hv)).
Qed.

(** X13. When both hooks return and the handler returns a pair of a dict
    and an integer status from 100 to 599, the answer has that status and
    the dict as body. *)
Theorem status_pair_sets_status self kwargs s s1 s2 entries (n : Z) j :
  before_try self s = (Return tt, s1) ->
  View_dispatch (as_view self) (method (request s1)) kwargs s1
  = (Return (PyTuple [PyDict entries; PyInt n]), s2) ->
  json_dumps (PyDict entries) = Some j ->
  100 <= n <= 599 ->
  dispatch self kwargs s = (Return (mkResponse n (JsonContent j)), s2).
Proof.
  intros Hh Hv Hj Hn. rewrite (dispatch_wraps _ _ _ _ _ _ Hh Hv).
  unfold try_except, lift, JsonResponse. rewrite Hj. simpl.
  replace ((100 <=? n) && (n <=? 599))%Z with true; [done |].
  symmetry. apply andb_true_iff. split; apply Z.leb_le; lia.
Qed.

(** X14. A pair whose status is an integer outside 100..599 is not
    answered with that status: the response constructor's [ValueError] is
    raised inside the [try] block, so the answer is status 500 "Unknown
    Error". *)
Theorem pair_with_bad_status_answers_500 self kwargs s s1 s2 entries
    (n : Z) j :
  before_try self s = (Return tt, s1) ->
  View_dispatch (as_view self) (method (request s1)) kwargs s1
  = (Return (PyTuple [PyDict entries; PyInt n]), s2) ->
  json_dumps (PyDict entries) = Some j ->
  n < 100 \/ 599 < n ->
  dispatch self kwargs s
  = (Return unknown_error,
     logged (Log ERROR api_call_failed) s2).
Proof.
  intros Hh Hv Hj Hn. rewrite (dispatch_wraps _ _ _ _ _ _ Hh Hv).
  unfold try_except, lift, JsonResponse. rewrite Hj. simpl.
  replace ((100 <=? n) && (n <=? 599))%Z with false; [done |].
  symmetry. apply andb_false_iff.
  destruct Hn; [left; apply Z.leb_gt | right; apply Z.leb_gt]; lia.
Qed.

(** X15. A returned tuple that is not a pair cannot be unpacked: the answer
    is status 500 "Unknown Error", whatever the tuple holds. *)
Theorem wrong_length_tuple_answers_500 self kwargs s s1 s2 items :
  before_try self s = (Return tt, s1) ->
  View_dispatch (as_view self) (method (request s1)) kwargs s1
  = (Return (PyTuple items), s2) ->
  length items <> 2%nat ->
  dispatch self kwargs s
  = (Return unknown_error,
     logged (Log ERROR api_call_failed) s2).
Proof.
  intros Hh Hv Hl. rewrite (dispatch_wraps _ _ _ _ _ _ Hh Hv).
  by destruct items as [| a [| b [| c l]]].
Qed.

(** X16. A returned value that is neither a tuple nor a dict, be it
    JSON-serializable or not, is answered with status 500 "Server returned
    invalid data.". *)
Theorem non_dict_return_answers_500 self kwargs s s1 s2 v :
  before_try self s = (Return tt, s1) ->
  View_dispatch (as_view self) (method (request s1)) kwargs s1
  = (Return v, s2) ->
  (forall items, v <> PyTuple items) ->
  (forall entries, v <> PyDict entries) ->
  dispatch self kwargs s
  = (Return invalid_data, logged (Log ERROR "Return data %s invalid %s") s2).
Proof.
  intros Hh Hv Ht Hd. rewrite (dispatch_wraps _ _ _ _ _ _ Hh Hv).
  destruct v; try done; [by destruct (Ht items) | by destruct (Hd entries)].
Qed.

(** X17. An [APIException] whose status is an integer outside 100..599 is
    never answered: whatever its code and message, [dispatch] raises the
    [ValueError] of the response constructor, from inside the [except]
    clause. *)
Theorem out_of_range_status_escapes self kwargs s s1 s2 code message
    (n : Z) jc jm :
  before_try self s = (Return tt, s1) ->
  respond self kwargs s1 = (Raise (APIException code message (PyInt n)), s2) ->
  json_dumps code = Some jc ->
  json_dumps message = Some jm ->
  n < 100 \/ 599 < n ->
  dispatch self kwargs s = (Raise (OtherException "ValueError"), s2).
Proof.
  intros Hh Hr Hc Hm Hn. rewrite (dispatch_translates _ _ _ _ _ _ Hh Hr).
  unfold translate, lift, JsonResponse.
  rewrite (json_dumps_error_code _ _ _ _ Hm Hc). simpl.
  replace ((100 <=? n) && (n <=? 599))%Z with false; [done |].
  symmetry. apply andb_false_iff.
  destruct Hn; [left; apply Z.leb_gt | right; apply Z.leb_gt]; lia.
Qed.

(** X18. A [ValidationError] whose errors the JSON encoder refuses is not
    answered either: the warning is logged and [dispatch] raises the
    encoder's [TypeError]. *)
Theorem unserializable_errors_escape self kwargs s s1 s2 errors :
  before_try self s = (Return tt, s1) ->
  respond self kwargs s1 = (Raise (ValidationError errors), s2) ->
  json_dumps errors = None ->
  dispatch self kwargs s
  = (Raise TypeError,
     logged (Log WARNING "Invalid request method=%s path=%s exception=%s")
            s2).
Proof.
  intros Hh Hr Hj. rewrite (dispatch_translates _ _ _ _ _ _ Hh Hr).
  unfold translate, bind, emit, lift, JsonResponse. simpl. by rewrite Hj.
Qed.

(** X19. The verbs [BaseAPI] has no handler for (PATCH, TRACE, OPTIONS and
    unknown ones) reach neither the validator nor an operation, and are
    answered with status 500 "Server returned invalid data.": the response
    object Django's fallback returns is wrapped like a handler's value. *)
Theorem verbs_without_handler_answer_500 self kwargs s s1 :
  before_try self s = (Return tt, s1) ->
  match method (request s1) with
  | Patch | Trace | Options | Other _ => True
  | _ => False
  end ->
  dispatch self kwargs s
  = (Return invalid_data, logged (Log ERROR "Return data %s invalid %s") s1).
Proof.
  intros Hh Hm. rewrite (dispatch_after_hooks _ _ _ _ Hh).
  unfold try_except, respond, bind at 1, get_request, bind at 1.
  by destruct (method (request s1)).
Qed.

(** X20. A POST on the item URL reaches neither the validator nor
    [create]: the handler takes no identifier, the call raises [TypeError],
    and the answer is status 500 "Server returned invalid data.". *)
Theorem post_with_identifier_answers_500 self pk s s1 :
  before_try self s = (Return tt, s1) ->
  method (request s1) = Post ->
  dispatch self (Some pk) s
  = (Return invalid_data, logged (Log ERROR "Return data %s invalid %s") s1).
Proof.
  intros Hh Hm. rewrite (dispatch_after_hooks _ _ _ _ Hh).
  unfold try_except, respond, bind at 1, get_request, bind at 1.
  by rewrite Hm.
Qed.

(** X21. An exception that is no [Exception] (a [KeyboardInterrupt], a
    [SystemExit]) matches no clause: [dispatch] raises it unchanged and logs
    nothing. *)
Theorem non_exception_passes_through self kwargs s s1 s2 class_name :
  before_try self s = (Return tt, s1) ->
  respond self kwargs s1 = (Raise (NonException class_name), s2) ->
  dispatch self kwargs s = (Raise (NonException class_name), s2).
Proof.
  intros Hh Hr. by rewrite (dispatch_translates _ _ _ _ _ _ Hh Hr).
Qed.

End Translations.

(* ===================================================================== *)
(** ** One operation per request                                          *)
(* ===================================================================== *)

Definition is_invoke (e : event) : bool :=
  match e with Invoke _ _ => true | _ => false end.

(** [m] only appends events, at most [n] of them calls of an operation. *)
Definition invokes_at_most {W : Type} (n : nat) {A : Type}
    (m : M (state W) A) : Prop :=
  forall s, exists new,
    events (snd (m s)) = (events s ++ new)%list
    /\ (length (List.filter is_invoke new) <= n)%nat.

Section Invocations.

Context {W : Type}.
Implicit Types (self : BaseAPI W) (kwargs : option string) (s : state W).

Lemma invokes_none {A} (m : M (state W) A) :
  appends not_invoke m -> invokes_at_most 0 m.
Proof.
  intros Hm s. destruct (Hm s) as (new & E & F). exists new. split; [done |].
  clear E. induction F as [| e l He _ IH]; [done |]. simpl.
  destruct e; try done. by destruct (He operation pk).
Qed.

Lemma invokes_more {A} (m : M (state W) A) (a b : nat) :
  (a <= b)%nat -> invokes_at_most a m -> invokes_at_most b m.
Proof.
  intros Hab Hm s. destruct (Hm s) as (new & E & L). exists new.
  split; [done | lia].
Qed.

Lemma invokes_bind {A B} (m : M (state W) A) (k : A -> M (state W) B)
    (a b : nat) :
  invokes_at_most a m -> (forall x, invokes_at_most b (k x)) ->
  invokes_at_most (a + b) (bind m k).
Proof.
  intros Hm Hk s. unfold bind.
  destruct (Hm s) as (n1 & E1 & L1).
  destruct (m s) as [[x | e] s1]; simpl in *.
  - destruct (Hk x s1) as (n2 & E2 & L2).
    exists (n1 ++ n2)%list. rewrite E2, E1, app_assoc. split; [done |].
    rewrite List.filter_app, length_app. lia.
  - exists n1. split; [done | lia].
Qed.

Lemma invokes_try {A} (m : M (state W) A) (h : exn -> M (state W) A)
    (a b : nat) :
  invokes_at_most a m -> (forall e, invokes_at_most b (h e)) ->
  invokes_at_most (a + b) (try_except m h).
Proof.
  intros Hm Hh s. unfold try_except.
  destruct (Hm s) as (n1 & E1 & L1).
  destruct (m s) as [[x | e] s1]; simpl in *.
  - exists n1. split; [done | lia].
  - destruct (Hh e s1) as (n2 & E2 & L2).
    exists (n1 ++ n2)%list. rewrite E2, E1, app_assoc. split; [done |].
    rewrite List.filter_app, length_app. lia.
Qed.

Lemma invokes_invoke op pk (f : user_code (W := W) pyval) :
  invokes_at_most 1 (invoke op pk f).
Proof.
  intros s. exists [Invoke op pk]. unfold invoke, bind, emit, run. simpl.
  destruct (f _) as [o [w r]]. simpl. split; [done | lia].
Qed.

Lemma invokes_routed self f op pk (c : user_code pyval) :
  invokes_at_most 1 (_validate self f >> invoke op pk c).
Proof.
  apply (invokes_bind _ _ 0 1).
  - apply invokes_none, _validate_no_invoke.
  - intros _. apply invokes_invoke.
Qed.

Lemma invokes_pure {A} (m : M (state W) A) :
  appends not_invoke m -> invokes_at_most 1 m.
Proof. intros H. apply (invokes_more _ 0); [lia | by apply invokes_none]. Qed.

Lemma handlers_invoke_once self m kwargs :
  invokes_at_most 1 (View_dispatch (as_view self) m kwargs).
Proof.
  unfold View_dispatch, as_view; destruct m; simpl;
    unfold api.get, api.post, api.put, api.delete, View_options,
           http_method_not_allowed;
    repeat case_match;
    first [ apply invokes_routed
          | apply invokes_pure; appends_auto; intros ? ?; discriminate ].
Qed.

Lemma translate_no_invoke e : appends (W := W) not_invoke (translate e).
Proof. unfold translate. appends_auto; intros ? ?; discriminate. Qed.

(** X22. Whatever the controller, the request and the route arguments,
    [dispatch] calls at most one operation method. *)
Theorem at_most_one_operation self kwargs s :
  exists new,
    events (snd (dispatch self kwargs s)) = (events s ++ new)%list
    /\ (length (List.filter is_invoke new) <= 1)%nat.
Proof.
  revert s. change (invokes_at_most 1 (dispatch self kwargs)).
  unfold dispatch.
  apply (invokes_bind _ _ 0 1);
    [apply invokes_none; appends_auto; intros ? ?; discriminate | intros _].
  apply (invokes_bind _ _ 0 1);
    [apply invokes_none; appends_auto; intros ? ?; discriminate | intros _].
  apply (invokes_bind _ _ 0 1);
    [apply invokes_none; appends_auto; intros ? ?; discriminate | intros _].
  apply (invokes_try _ _ 1 0);
    [| intros e; apply invokes_none, translate_no_invoke].
  unfold respond.
  apply (invokes_bind _ _ 0 1);
    [apply invokes_none, appends_get_request | intros r].
  apply (invokes_bind _ _ 1 0); [apply handlers_invoke_once | intros v].
  apply invokes_none. appends_auto.
Qed.

(** X23. A POST on the collection whose JSON object satisfies the body
    schema declared on [create]: the handler calls [create], and only it,
    on the request whose [validated_body] is the schema's instance (and
    whose [validated_query] is [None]). *)
Theorem valid_body_reaches_create self s (body_model : schema) fields v :
  method (request s) = Post ->
  attrs (create self) !! "validate_query" = None ->
  attrs (create self) !! "validate_body" = Some body_model ->
  content_type (request s) = "application/json" ->
  body (request s) = JsonText (PyDict fields) ->
  body_model fields = Return v ->
  View_dispatch (as_view self) (method (request s)) None s
  = invoke self_create None (code (create self))
      (mkState (world s)
         (set_validated_query PyNone (set_validated_body v (request s)))
         (events s ++ [Validator self_create; ParseJsonBody; BodySchema])).
Proof.
  intros Hm Hq Hb Hc Hj Hv. rewrite Hm. unfold View_dispatch, as_view. simpl.
  unfold api.post, bind at 1.
  rewrite (_validate_body_only self self_create s body_model Hq Hb);
    [| by rewrite Hm].
  by rewrite Hc, Hj, Hv.
Qed.

End Invocations.

(* ===================================================================== *)
(** ** Further properties of the decorator                                *)
(* ===================================================================== *)

(** X24. [validate] writes the two attributes [validate_query] and
    [validate_body] and nothing else: every other attribute of the
    function, and its code, are as before. *)
Theorem validate_touches_only_its_attributes {T} (f : function T)
    (query body : option schema) (name : string) :
  name <> "validate_query" ->
  name <> "validate_body" ->
  getattr (decorators.validate query body f) name = getattr f name
  /\ code (decorators.validate query body f) = code f.
Proof.
  intros Hq Hb. unfold decorators.validate, getattr, setattr, schema in *.
  destruct query, body; simpl; by simplify_map_eq.
Qed.

(** Two function objects with the same code are equal when every attribute
    reads the same on both. *)
Lemma function_ext {T} (m1 m2 : gmap string schema) (c : T) :
  (forall name, m1 !! name = m2 !! name) -> def m1 c = def m2 c.
Proof. intros H. f_equal. by apply map_eq. Qed.

(** Compares two attribute maps name by name. *)
Ltac by_attribute :=
  apply function_ext;
  let name := fresh "name" in
  intros name;
  destruct (decide (name = "validate_body")) as [Hb |];
  destruct (decide (name = "validate_query")) as [Hq |];
  simplify_eq; by simplify_map_eq.

(** X25. Declaring both schemas at once is the same as declaring them one
    after the other, in either order; and declaring the same schemas a
    second time changes nothing. *)
Theorem validate_sides_commute {T} (f : function T) (q b : schema)
    (query body : option schema) :
  decorators.validate (Some q) (Some b) f
  = decorators.validate (Some q) None (decorators.validate None (Some b) f)
  /\ decorators.validate (Some q) (Some b) f
     = decorators.validate None (Some b)
         (decorators.validate (Some q) None f)
  /\ decorators.validate query body (decorators.validate query body f)
     = decorators.validate query body f.
Proof.
  unfold decorators.validate, setattr. split_and!;
    [| | destruct query, body]; simpl; try done; try by_attribute.
Qed.

Lemma validate_touches_only_its_attributes_witness :
  getattr (decorators.validate (Some gadgets.Paged) (Some gadgets.Named)
             (def (T := unit) ∅ tt)) "csrf_exempt"
  = getattr (def (T := unit) ∅ tt) "csrf_exempt"
  /\ code (decorators.validate (Some gadgets.Paged) (Some gadgets.Named)
             (def (T := unit) ∅ tt))
     = code (def (T := unit) ∅ tt).
Proof.
  apply (validate_touches_only_its_attributes (def ∅ tt)
           (Some gadgets.Paged) (Some gadgets.Named) "csrf_exempt");
    discriminate.
Defined.

(* ===================================================================== *)
(** ** Further properties of the router                                   *)
(* ===================================================================== *)

Section RouterProperties.

Import router.

Lemma append_cancel_l (r a b : string) :
  (r ++ a)%string = (r ++ b)%string -> a = b.
Proof.
  induction r as [| c r IH]; [done |]. intros H. apply IH.
  change (String c (r ++ a)%string = String c (r ++ b)%string) in H.
  congruence.
Qed.

Lemma append_slash_inj (r1 r2 : string) :
  (r1 ++ "/")%string = (r2 ++ "/")%string ->
  has_dot r1 = false -> has_dot r2 = false -> r1 = r2.
Proof.
  revert r2. induction r1 as [| c1 r1 IH]; intros [| c2 r2] H; try done.
  - change ("/" = String c2 (r2 ++ "/")%string) in H.
    injection H as _ H. by destruct r2.
  - change (String c1 (r1 ++ "/")%string = "/") in H.
    injection H as _ H. by destruct r1.
  - change (String c1 (r1 ++ "/")%string = String c2 (r2 ++ "/")%string) in H.
    injection H as -> H. simpl. intros H1 H2.
    apply orb_false_iff in H1 as [_ H1]. apply orb_false_iff in H2 as [_ H2].
    f_equal. by apply IH.
Qed.

Lemma add_appends {K} (self : Router K) (k : klass K) :
  urls_ (add self k) = (urls_ self ++ urls_ (add new k))%list.
Proof. unfold urls_, add. simpl. by rewrite <- app_assoc. Qed.

(** X26. Registering controllers one after the other, in any number and
    with repetitions, leaves what was registered before in place and adds
    the two patterns of each controller in registration order: the table
    grows by exactly two entries per [add], and nothing is merged or
    dropped. *)
Theorem registration_keeps_order {K} (self : Router K) (ks : list (klass K)) :
  urls_ (fold_left add ks self)
  = (urls_ self ++ flat_map (fun k => urls_ (add new k)) ks)%list
  /\ length (urls_ (fold_left add ks self))
     = (length (urls_ self) + 2 * length ks)%nat.
Proof.
  assert (urls_ (fold_left add ks self)
          = (urls_ self ++ flat_map (fun k => urls_ (add new k)) ks)%list)
    as E.
  { revert self. induction ks as [| k ks IH]; intros self; simpl.
    - by rewrite app_nil_r.
    - by rewrite IH, add_appends, <- app_assoc. }
  split; [done |]. rewrite E, length_app. f_equal.
  clear E. induction ks as [| k ks IH]; [done |]. simpl in *. lia.
Qed.

(** X27. The two patterns [add] creates for a controller never coincide,
    and neither do their names. *)
Theorem collection_and_item_patterns_differ {K} (self : Router K)
    (k : klass K) :
  exists collection item,
    urls_ (add self k) = (urls_ self ++ [collection; item])%list
    /\ urls.route collection <> urls.route item
    /\ urls.name collection <> urls.name item.
Proof.
  eexists _, _. split_and!.
  - unfold urls_, add. simpl. by rewrite <- app_assoc.
  - simpl. intros H. by apply append_cancel_l in H.
  - simpl. intros H. by apply append_cancel_l in H.
Qed.

(** X28. Two controllers get the same URL patterns exactly when their
    modules lie in the same top-level package: the rest of the module path
    and the class play no role. *)
Theorem same_package_same_patterns {K1 K2} (k1 : klass K1) (k2 : klass K2) :
  map urls.route (urls_ (add new k1)) = map urls.route (urls_ (add new k2))
  <-> first_segment (__module__ k1) = first_segment (__module__ k2).
Proof.
  unfold urls_, add. simpl. split.
  - intros H. injection H as H _.
    apply append_slash_inj; [done | apply first_segment_no_dot ..].
  - by intros ->.
Qed.

End RouterProperties.

(* ===================================================================== *)
(** ** The properties above on the sample resources                       *)
(* ===================================================================== *)

Lemma query_binding_decides_witness :
  validated_query
    (request (snd (_validate gadgets.Gadgets self_list
       (gadgets.start (gadgets.request Get "" [("page", "1"); ("page", "2")]
                         [] NotJson)))))
  = Some (PyDict [("page", PyStr "2")]).
Proof.
  refine (query_binding_decides gadgets.Gadgets self_list
            (gadgets.start (gadgets.request Get ""
                              [("page", "1"); ("page", "2")] [] NotJson))
            gadgets.Paged _ _); vm_compute; reflexivity.
Defined.

Lemma malformed_json_raises_before_schema_witness :
  _validate gadgets.Gadgets self_create
    (gadgets.start (gadgets.request Post "application/json" [] [] NotJson))
  = (Raise JSONDecodeError,
     mkState tt (gadgets.request Post "application/json" [] [] NotJson)
       [Validator self_create; ParseJsonBody]).
Proof.
  refine (malformed_json_raises_before_schema gadgets.Gadgets self_create
            (gadgets.start
               (gadgets.request Post "application/json" [] [] NotJson))
            gadgets.Named _ _ _ _ _); vm_compute; reflexivity.
Defined.

Lemma non_object_json_raises_type_error_witness :
  _validate gadgets.Gadgets self_create
    (gadgets.start (gadgets.request Post "application/json" [] []
                      (JsonText (PyList [PyStr "foo"]))))
  = (Raise TypeError,
     mkState tt
       (gadgets.request Post "application/json" [] []
          (JsonText (PyList [PyStr "foo"])))
       [Validator self_create; ParseJsonBody]).
Proof.
  refine (non_object_json_raises_type_error gadgets.Gadgets self_create
            (gadgets.start
               (gadgets.request Post "application/json" [] []
                  (JsonText (PyList [PyStr "foo"]))))
            gadgets.Named (PyList [PyStr "foo"]) _ _ _ _ _ _);
    try (vm_compute; reflexivity).
  intros entries; discriminate.
Defined.

Lemma json_object_goes_to_body_schema_witness :
  _validate gadgets.Gadgets self_create
    (gadgets.start (gadgets.request Post "application/json" [] []
                      (JsonText (PyDict [("name", PyStr "foo")]))))
  = match gadgets.Named [("name", PyStr "foo")] with
    | Return v =>
        (Return tt,
         mkState tt
           (set_validated_query PyNone
              (set_validated_body v
                 (gadgets.request Post "application/json" [] []
                    (JsonText (PyDict [("name", PyStr "foo")])))))
           [Validator self_create; ParseJsonBody; BodySchema])
    | Raise e =>
        (Raise e,
         mkState tt
           (gadgets.request Post "application/json" [] []
              (JsonText (PyDict [("name", PyStr "foo")])))
           [Validator self_create; ParseJsonBody; BodySchema])
    end.
Proof.
  refine (json_object_goes_to_body_schema gadgets.Gadgets self_create
            (gadgets.start
               (gadgets.request Post "application/json" [] []
                  (JsonText (PyDict [("name", PyStr "foo")]))))
            gadgets.Named [("name", PyStr "foo")] _ _ _ _ _);
    vm_compute; reflexivity.
Defined.

Lemma form_data_goes_to_body_schema_witness :
  fst (_validate gadgets.Gadgets self_create
         (gadgets.start
            (gadgets.request Post "application/x-www-form-urlencoded" []
               [("name", "foo")] NotJson)))
  = Return tt.
Proof.
  rewrite (form_data_goes_to_body_schema gadgets.Gadgets self_create
             (gadgets.start
                (gadgets.request Post "application/x-www-form-urlencoded" []
                   [("name", "foo")] NotJson))
             gadgets.Named); try (vm_compute; reflexivity).
  discriminate.
Defined.

Lemma bodyless_verbs_skip_body_schema_witness :
  validated_body
    (request (snd (_validate gadgets.Gadgets self_create
       (gadgets.start (gadgets.request Get "application/json" [] []
                         NotJson)))))
  = Some PyNone.
Proof.
  refine (proj2 (bodyless_verbs_skip_body_schema gadgets.Gadgets self_create
            (gadgets.start (gadgets.request Get "application/json" [] []
                              NotJson)) _) _);
    vm_compute; reflexivity.
Defined.

Lemma validator_sets_both_slots_witness :
  is_Some (validated_query
    (request (snd (_validate gadgets.Gadgets self_retrieve
       (gadgets.start (gadgets.request Get "" [] [] NotJson))))))
  /\ is_Some (validated_body
    (request (snd (_validate gadgets.Gadgets self_retrieve
       (gadgets.start (gadgets.request Get "" [] [] NotJson)))))).
Proof.
  refine (validator_sets_both_slots gadgets.Gadgets self_retrieve
            (gadgets.start (gadgets.request Get "" [] [] NotJson)) _).
  vm_compute; reflexivity.
Defined.

Lemma validation_failure_answers_400_witness :
  fst (dispatch gadgets.Gadgets None
         (gadgets.start (gadgets.request Post "application/json" [] []
                           (JsonText (PyDict [("name", PyInt 123)])))))
  = Return (mkResponse 400 (JsonContent
      (JObj [("error",
              JArr [JObj [("type", JStr "string_type");
                          ("loc", JArr [JStr "name"])]])]))).
Proof.
  edestruct (validation_failure_answers_400 gadgets.Gadgets None
               (gadgets.start (gadgets.request Post "application/json" [] []
                                 (JsonText (PyDict [("name", PyInt 123)])))))
    as [E _]; [vm_compute; reflexivity .. | rewrite E; reflexivity].
Defined.

Lemma malformed_json_answers_400_witness :
  fst (dispatch gadgets.Gadgets None
         (gadgets.start (gadgets.request Post "application/json" [] []
                           NotJson)))
  = Return invalid_json.
Proof.
  erewrite (malformed_json_answers_400 gadgets.Gadgets None
              (gadgets.start (gadgets.request Post "application/json" [] []
                                NotJson)));
    vm_compute; reflexivity.
Defined.

Lemma status_pair_sets_status_witness :
  fst (dispatch gadgets.Gadgets None
         (gadgets.start (gadgets.request Post "application/json" [] []
                           (JsonText (PyDict [("name", PyStr "foo")])))))
  = Return (mkResponse 201 (JsonContent (JObj [("name", JStr "foo")]))).
Proof.
  erewrite (status_pair_sets_status gadgets.Gadgets None
              (gadgets.start (gadgets.request Post "application/json" [] []
                                (JsonText (PyDict [("name", PyStr "foo")]))))
              _ _ _ 201);
    [vm_compute; reflexivity | vm_compute; reflexivity | vm_compute; reflexivity | vm_compute; reflexivity | lia].
Defined.

Lemma pair_with_bad_status_answers_500_witness :
  fst (dispatch gadgets.Gadgets (Some "7")
         (gadgets.start (gadgets.request Put "application/json" [] []
                           NotJson)))
  = Return unknown_error.
Proof.
  erewrite (pair_with_bad_status_answers_500 gadgets.Gadgets (Some "7")
              (gadgets.start (gadgets.request Put "application/json" [] []
                                NotJson))
              _ _ _ 700);
    [vm_compute; reflexivity | vm_compute; reflexivity | vm_compute; reflexivity | vm_compute; reflexivity | lia].
Defined.

Lemma wrong_length_tuple_answers_500_witness :
  fst (dispatch
         (widgets.Widgets TypeError (PyTuple [PyInt 1; PyInt 2; PyInt 3]))
         None (widgets.start Get))
  = Return unknown_error.
Proof.
  erewrite (wrong_length_tuple_answers_500
              (widgets.Widgets TypeError (PyTuple [PyInt 1; PyInt 2; PyInt 3]))
              None (widgets.start Get));
    [vm_compute; reflexivity | vm_compute; reflexivity | vm_compute; reflexivity | simpl; lia].
Defined.

Lemma non_dict_return_answers_500_witness :
  fst (dispatch (widgets.Widgets TypeError (PyList [PyInt 1])) None
         (widgets.start Get))
  = Return invalid_data.
Proof.
  erewrite (non_dict_return_answers_500
              (widgets.Widgets TypeError (PyList [PyInt 1])) None
              (widgets.start Get));
    [vm_compute; reflexivity | vm_compute; reflexivity | vm_compute; reflexivity
     | intros; discriminate | intros; discriminate].
Defined.

Lemma out_of_range_status_escapes_witness :
  fst (dispatch
         (widgets.Widgets (APIException (PyStr "gone") (PyStr "Gone")
                             (PyInt 1410)) PyNone)
         None (widgets.start Post))
  = Raise (OtherException "ValueError").
Proof.
  erewrite (out_of_range_status_escapes
              (widgets.Widgets (APIException (PyStr "gone") (PyStr "Gone")
                                  (PyInt 1410)) PyNone)
              None (widgets.start Post));
    [vm_compute; reflexivity | vm_compute; reflexivity | vm_compute; reflexivity | vm_compute; reflexivity | vm_compute; reflexivity
     | lia].
Defined.

Lemma unserializable_errors_escape_witness :
  fst (dispatch
         (widgets.Widgets
            (ValidationError
               (PyList [PyDict [("ctx", PyObject "ValueError()")]]))
            PyNone)
         None (widgets.start Post))
  = Raise TypeError.
Proof.
  refine (f_equal fst
            (unserializable_errors_escape
               (widgets.Widgets
                  (ValidationError
                     (PyList [PyDict [("ctx", PyObject "ValueError()")]]))
                  PyNone)
               None (widgets.start Post) (hooks_passed (widgets.start Post))
               _ _ _ _ _));
    vm_compute; reflexivity.
Defined.

Lemma verbs_without_handler_answer_500_witness :
  fst (dispatch gadgets.Gadgets (Some "7")
         (gadgets.start (gadgets.request Patch "application/json" [] []
                           (JsonText (PyDict [("name", PyStr "bar")])))))
  = Return invalid_data.
Proof.
  erewrite (verbs_without_handler_answer_500 gadgets.Gadgets (Some "7")
              (gadgets.start (gadgets.request Patch "application/json" [] []
                                (JsonText (PyDict [("name", PyStr "bar")])))));
    [vm_compute; reflexivity | vm_compute; reflexivity | exact I].
Defined.

Lemma post_with_identifier_answers_500_witness :
  fst (dispatch gadgets.Gadgets (Some "7")
         (gadgets.start (gadgets.request Post "application/json" [] []
                           (JsonText (PyDict [("name", PyStr "foo")])))))
  = Return invalid_data.
Proof.
  erewrite (post_with_identifier_answers_500 gadgets.Gadgets "7"
              (gadgets.start (gadgets.request Post "application/json" [] []
                                (JsonText (PyDict [("name", PyStr "foo")])))));
    vm_compute; reflexivity.
Defined.

Lemma non_exception_passes_through_witness :
  fst (dispatch gadgets.Gadgets (Some "7")
         (gadgets.start (gadgets.request Delete "" [] [] NotJson)))
  = Raise (NonException "KeyboardInterrupt").
Proof.
  refine (f_equal fst
            (non_exception_passes_through gadgets.Gadgets (Some "7")
               (gadgets.start (gadgets.request Delete "" [] [] NotJson))
               (hooks_passed
                  (gadgets.start (gadgets.request Delete "" [] [] NotJson)))
               _ _ _ _));
    vm_compute; reflexivity.
Defined.

Lemma valid_body_reaches_create_witness :
  fst (View_dispatch (as_view gadgets.Gadgets) Post None
         (gadgets.start (gadgets.request Post "application/json" [] []
                           (JsonText (PyDict [("name", PyStr "foo")])))))
  = Return (PyTuple [PyDict [("name", PyStr "foo")]; PyInt 201]).
Proof.
  change Post with
    (method (request (gadgets.start
       (gadgets.request Post "application/json" [] []
          (JsonText (PyDict [("name", PyStr "foo")])))))) at 1.
  erewrite (valid_body_reaches_create gadgets.Gadgets _ gadgets.Named);
    vm_compute; reflexivity.
Defined.
